(** * backgammon.board: a shallow embedding and its properties

    The module [backgammon/board.py] is a rules engine: a board is a tuple
    of signed counts, a jail is a tuple of (side, signed count) pairs, a
    move is a named tuple (side, start, die_roll).  Python integers are
    unbounded, so they are [Z]; tuples and lists are [list]; exceptions are
    the [Raise] branch of a result type, and the lazy generators are the
    recursions that stop where the Python iteration stops. *)

From Stdlib Require Import ZArith List Lia Bool.
From stdpp Require Import base decidable countable list gmap.

Local Open Scope Z_scope.

(** ** Python primitives used by the module *)

Module Py.

(** The exceptions that the module can raise.  [OutOfFuel] is not a
    Python exception: it marks an exhausted recursion budget of the
    enumerator's model, and [fuel_is_enough] shows that
    [_get_all_move_sets] never produces it. *)
Inductive exn : Set :=
| IllegalMoveException
| ValueError
| ZeroDivisionError
| IndexError
| OutOfFuel.

Inductive res (A : Type) : Type :=
| Ok (a : A)
| Raise (e : exn).
Arguments Ok {A} a.
Arguments Raise {A} e.

Definition bind {A B : Type} (c : res A) (k : A -> res B) : res B :=
  match c with
  | Ok a => k a
  | Raise e => Raise e
  end.

#[global] Instance exn_eq_dec : EqDecision exn.
Proof. solve_decision. Defined.

(** [seq[i]] on a sequence of length [len]: negative indices count from
    the end, anything else out of range raises IndexError. *)
Definition index (len : nat) (i : Z) : res nat :=
  if (0 <=? i) && (i <? Z.of_nat len) then Ok (Z.to_nat i)
  else if (- Z.of_nat len <=? i) && (i <? 0) then Ok (Z.to_nat (Z.of_nat len + i))
  else Raise IndexError.

Definition getitem (l : list Z) (i : Z) : res Z :=
  bind (index (length l) i) (fun k =>
    match l !! k with
    | Some v => Ok v
    | None => Raise IndexError
    end).

Definition setitem (l : list Z) (i : Z) (v : Z) : res (list Z) :=
  bind (index (length l) i) (fun k => Ok (<[k := v]> l)).

(** [range(start, stop, step)] for a non-zero step. *)
Definition range (start stop step : Z) : list Z :=
  let n :=
    if 0 <? step then (stop - start + step - 1) / step
    else (start - stop - step - 1) / (- step) in
  List.map (fun k => start + Z.of_nat k * step) (seq 0 (Z.to_nat n)).

(** The bound of a slice, clamped as Python does. *)
Definition clamp (len : nat) (i : Z) : nat :=
  Z.to_nat (Z.min (Z.of_nat len) (Z.max 0 (if i <? 0 then Z.of_nat len + i else i))).

(** [l[i:]] and [l[:j]]. *)
Definition slice_from {A : Type} (l : list A) (i : Z) : list A :=
  drop (clamp (length l) i) l.
Definition slice_to {A : Type} (l : list A) (j : Z) : list A :=
  take (clamp (length l) j) l.

(** [sum], [max] of a sequence of ints ([max] of an empty sequence raises
    ValueError) and [sorted]. *)
Definition sum (l : list Z) : Z := fold_left Z.add l 0.

Definition max (l : list Z) : res Z :=
  match l with
  | [] => Raise ValueError
  | x :: xs => Ok (fold_left Z.max xs x)
  end.

Fixpoint insert_sorted (x : Z) (l : list Z) : list Z :=
  match l with
  | [] => [x]
  | y :: ys => if x <=? y then x :: l else y :: insert_sorted x ys
  end.

Definition sorted (l : list Z) : list Z := fold_right insert_sorted [] l.

(** A dict as the list of its items in insertion order, keys unique. *)
Section Dict.
Context {K V : Type} `{EqDecision K}.

Fixpoint dict_set (d : list (K * V)) (k : K) (v : V) : list (K * V) :=
  match d with
  | [] => [(k, v)]
  | (k', v') :: d' =>
      if decide (k' = k) then (k, v) :: d' else (k', v') :: dict_set d' k v
  end.

Fixpoint dict_get (d : list (K * V)) (k : K) (default : V) : V :=
  match d with
  | [] => default
  | (k', v') :: d' => if decide (k' = k) then v' else dict_get d' k default
  end.

(** [dict(pairs)]: later pairs overwrite earlier ones in place. *)
Definition dict (pairs : list (K * V)) : list (K * V) :=
  fold_left (fun d kv => dict_set d kv.1 kv.2) pairs [].
End Dict.

End Py.

Import Py.

#[global] Instance res_ret : MRet res := @Ok.
#[global] Instance res_bind : MBind res := fun A B k c => Py.bind c k.

(** [for x in xs: s = body(s, x)], stopping at the first exception. *)
Definition for_loop {A S : Type} (body : S -> A -> res S) : list A -> S -> res S :=
  fix go (xs : list A) (s : S) : res S :=
    match xs with
    | [] => Ok s
    | x :: xs' => s' ← body s x; go xs' s'
    end.

(** ** The module [backgammon.board] *)

Definition START_FROM_JAIL_FLAG : Z := -1.

Definition DICE_CHOICES : list Z := Py.range 1 7 1.

Definition NO_MOVE_EMPTY_SET {A : Type} : list A := [].

(** *** class Side *)

Module Side.

Inductive t : Set := WHITE | BLACK.

#[global] Instance eq_dec : EqDecision t.
Proof. solve_decision. Defined.

(** The enum values: int value, home, jail start, cap method. *)
Definition token (self : t) : Z :=
  match self with WHITE => 1 | BLACK => -1 end.

Definition direction (self : t) : Z := token self.

Definition home (self : t) : Z :=
  match self with WHITE => 25 | BLACK => 0 end.

Definition jail_start (self : t) : Z :=
  match self with WHITE => 0 | BLACK => 25 end.

Definition cap (self : t) : Z -> Z -> Z :=
  match self with WHITE => Z.min | BLACK => Z.max end.

Definition cap_to_home (self : t) : Z -> Z := cap self (home self).

Definition progression (self : t) : list Z :=
  let first_spot := jail_start self + direction self in
  let inclusive_end := home self + direction self in
  Py.range first_spot inclusive_end (direction self).

Definition other_side (self : t) : t :=
  if decide (self = WHITE) then BLACK else WHITE.

(** The division is only reached for a non-zero value ([and] is lazy), so
    it cannot raise. *)
Definition owns_spot (self : t) (spot_value : Z) : bool :=
  negb (spot_value =? 0) && (spot_value / Z.abs spot_value =? token self).

End Side.

(** *** class MoveTuple *)

Module MoveTuple.

Record t : Set := Make { side : Side.t; start : Z; die_roll : Z }.

#[global] Instance eq_dec : EqDecision t.
Proof. solve_decision. Defined.

#[global] Instance countable : Countable t.
Proof.
  refine (inj_countable'
            (fun m => (bool_decide (side m = Side.WHITE), start m, die_roll m))
            (fun p => Make (if p.1.1 then Side.WHITE else Side.BLACK) p.1.2 p.2) _).
  intros [[] s d]; reflexivity.
Defined.

Definition starts_in_jail (self : t) : bool :=
  start self =? START_FROM_JAIL_FLAG.

Definition effective_start (self : t) : Z :=
  if starts_in_jail self then Side.jail_start (side self) else start self.

Definition signed_roll (self : t) : Z :=
  die_roll self * Side.direction (side self).

Definition effective_end (self : t) : Z :=
  Side.cap_to_home (side self) (effective_start self + signed_roll self).

(** [dist / abs(dist)] raises ZeroDivisionError for a move of length 0. *)
Definition direction (self : t) : res Z :=
  let dist := effective_end self - effective_start self in
  if Z.abs dist =? 0 then Raise ZeroDivisionError
  else Ok (dist / Z.abs dist).

Definition effective_distance (self : t) : Z :=
  Z.abs (effective_end self - effective_start self).

Definition uses_whole_roll (self : t) : bool :=
  effective_distance self =? die_roll self.

End MoveTuple.

Abbreviation Spots := (list Z).
Abbreviation Jail := (list (Side.t * Z)).
Abbreviation MoveSet := (list MoveTuple.t).

(** *** Module-level helpers *)

Definition _is_stompable (spot_value : Z) : bool := spot_value <? 2.

Definition _get_die_and_other_dice (dice : list Z) : list (Z * list Z) :=
  imap (fun i die => (die, take i dice ++ drop (S i) dice)) dice.

Definition _get_number_present (spot_value : Z) : Z := Z.abs spot_value.

Definition _increment_for_side (spot_value : Z) (side : Side.t) : res Z :=
  if Side.owns_spot (Side.other_side side) spot_value then Raise ValueError
  else Ok (spot_value + 1 * Side.token side).

Definition _decrement_for_side (spot_value : Z) (side : Side.t) : res Z :=
  if negb (Side.owns_spot side spot_value) then Raise ValueError
  else Ok (spot_value - 1 * Side.token side).

(** [all(... for spot_value in (spots[i] for i in idxs) if owns_spot)]: the
    positions are read one at a time, and the scan stops at the first owned
    position with a non-zero count. *)
Fixpoint all_absent (spots : Spots) (side : Side.t) (idxs : list Z) : res bool :=
  match idxs with
  | [] => Ok true
  | i :: idxs' =>
      spot_value ← Py.getitem spots i;
      if Side.owns_spot side spot_value
      then if _get_number_present spot_value =? 0
           then all_absent spots side idxs'
           else Ok false
      else all_absent spots side idxs'
  end.

Definition _all_in_last_quarter (spots : Spots) (side : Side.t) : res bool :=
  all_absent spots side (Py.slice_to (Side.progression side) (-7)).

(** *** _make_move *)

(** The origin is decremented on the board or in the jail. *)
Definition decrement_start (spots : Spots) (jail : Jail) (move : MoveTuple.t)
  : res (Spots * Jail) :=
  let side := MoveTuple.side move in
  if negb (MoveTuple.starts_in_jail move) then
    old ← Py.getitem spots (MoveTuple.effective_start move);
    new ← _decrement_for_side old side;
    spots' ← Py.setitem spots (MoveTuple.effective_start move) new;
    Ok (spots', jail)
  else
    new ← _decrement_for_side (Py.dict_get jail side 0) side;
    Ok (spots, Py.dict_set jail side new).

(** "handle any stomping" *)
Definition handle_stomping (spots : Spots) (jail : Jail) (move : MoveTuple.t)
  : res (Spots * Jail) :=
  let other_side := Side.other_side (MoveTuple.side move) in
  let effective_end := MoveTuple.effective_end move in
  target ← Py.getitem spots effective_end;
  if Side.owns_spot other_side target then
    target ← Py.getitem spots effective_end;
    if negb (_is_stompable target) then Raise IllegalMoveException
    else
      old ← Py.getitem spots effective_end;
      new ← _decrement_for_side old other_side;
      spots' ← Py.setitem spots effective_end new;
      jailed ← _increment_for_side (Py.dict_get jail other_side 0) other_side;
      Ok (spots', Py.dict_set jail other_side jailed)
  else Ok (spots, jail).

Definition _make_move (spots : Spots) (jail : Jail) (move : MoveTuple.t)
  : res (Spots * Jail) :=
  let jail := Py.dict jail in
  let side := MoveTuple.side move in
  d ← MoveTuple.direction move;
  if negb (d =? Side.direction side)
  then Raise IllegalMoveException
  else
    blocked ← (if MoveTuple.effective_end move =? Side.home side
               then inside ← _all_in_last_quarter spots side; Ok (negb inside)
               else Ok false);
    if (blocked : bool) then Raise IllegalMoveException
    else
      '(spots, jail) ← decrement_start spots jail move;
      '(spots, jail) ← handle_stomping spots jail move;
      old ← Py.getitem spots (MoveTuple.effective_end move);
      new ← _increment_for_side old side;
      spots ← Py.setitem spots (MoveTuple.effective_end move) new;
      Ok (spots, jail).

(** *** _get_all_move_sets *)

Definition start_spots_of (side : Side.t) (spots : Spots) : list Z :=
  List.map fst
    (List.filter (fun p => Side.owns_spot side (snd p))
       (combine (Py.slice_from (Side.progression side) (-1)) spots)).

(** The recursion of the source is on the shrinking tuple of dice; [fuel]
    bounds its depth.  An exception of [_make_move] other than
    IllegalMoveException, and any exception of the recursive call, leaves
    the loops. *)
Fixpoint get_all_move_sets_fuel (fuel : nat) (spots : Spots) (jail : Jail)
    (side : Side.t) (remaining_dice : list Z) : res (list MoveSet) :=
  match remaining_dice with
  | [] => Ok [NO_MOVE_EMPTY_SET]
  | _ :: _ =>
      let start_spots := start_spots_of side spots in
      match start_spots with
      | [] => Ok [NO_MOVE_EMPTY_SET]
      | _ :: _ =>
          match fuel with
          | O => Raise OutOfFuel
          | S fuel' =>
              for_loop (fun all_move_sets start_spot =>
                for_loop (fun all_move_sets '(die, other_dice) =>
                  let move := MoveTuple.Make side start_spot die in
                  match _make_move spots jail move with
                  | Raise IllegalMoveException => Ok all_move_sets
                  | Raise e => Raise e
                  | Ok (next_spots, next_jail) =>
                      rest ← get_all_move_sets_fuel fuel' next_spots next_jail
                               side other_dice;
                      Ok (all_move_sets ++ List.map (cons move) rest)
                  end)
                  (_get_die_and_other_dice remaining_dice) all_move_sets)
                start_spots []
          end
      end
  end.

Definition _get_all_move_sets (spots : Spots) (jail : Jail) (side : Side.t)
    (remaining_dice : list Z) : res (list MoveSet) :=
  get_all_move_sets_fuel (length remaining_dice) spots jail side remaining_dice.

(** *** _get_all_optimal_moves *)

Definition rating (move_set : MoveSet) : Z :=
  Py.sum (List.map MoveTuple.effective_distance move_set).

Definition _get_all_optimal_moves (spots : Spots) (jail : Jail) (side : Side.t)
    (rolled_dice : list Z) : res (gset MoveSet) :=
  all_legal_move_sets ← _get_all_move_sets spots jail side rolled_dice;
  let ratings := List.map rating all_legal_move_sets in
  best_rating ← Py.max ratings;
  Ok (list_to_set
        (List.map fst
           (List.filter (fun p => snd p =? best_rating)
              (combine all_legal_move_sets ratings)))).

(** *** play *)

Definition play (spots : Spots) (jail : Jail) (side : Side.t)
    (move_set : MoveSet) (rolled_dice : list Z) : res (Spots * Jail) :=
  _ ← (if negb (forallb MoveTuple.uses_whole_roll move_set) then
         optimal_moves ← _get_all_optimal_moves spots jail side rolled_dice;
         if decide (move_set ∈ optimal_moves) then Ok tt
         else Raise IllegalMoveException
       else Ok tt);
  for_loop (fun '(spots, jail) move => _make_move spots jail move)
    move_set (spots, jail).

(** *** roll_dice *)

(** The body of [roll_dice] after its two draws [a] and [b]. *)
Definition roll_dice_from (a b : Z) : list Z :=
  let rolls := [a; b] in
  let rolls := if a =? b then rolls ++ rolls else rolls in
  Py.sorted rolls.

(** [random.choice(DICE_CHOICES)] yields some element of DICE_CHOICES: the
    possible results of [roll_dice] are those of its body on two such
    draws. *)
Inductive roll_dice : list Z -> Prop :=
| roll_dice_draws (a b : Z) :
    a ∈ DICE_CHOICES -> b ∈ DICE_CHOICES -> roll_dice (roll_dice_from a b).

(** ** A reference position

    The position of the repository's test: 26 spots, one WHITE checker on
    spot 20. *)

Definition empty_board : Spots := replicate 26 0.

Definition place (i : nat) (v : Z) (spots : Spots) : Spots := <[i := v]> spots.

Definition test_spots : Spots := place 20 1 empty_board.

(** ** Counting checkers

    A spot holds a signed count; the jail holds, per side, a count with the
    same sign convention (the jail entry goes through the same
    [_increment_for_side] and [_decrement_for_side] as a spot). *)

Definition checkers_of (side : Side.t) (spot_value : Z) : Z :=
  if Side.owns_spot side spot_value then _get_number_present spot_value else 0.

Definition board_count (side : Side.t) (spots : Spots) : Z :=
  Py.sum (List.map (checkers_of side) spots).

(** The count held for [side] by a jail that is already a dict. *)
Definition entry_count (side : Side.t) (jail : Jail) : Z :=
  checkers_of side (Py.dict_get jail side 0).

Definition jail_count (side : Side.t) (jail : Jail) : Z :=
  entry_count side (Py.dict jail).

Definition total_count (side : Side.t) (spots : Spots) (jail : Jail) : Z :=
  board_count side spots + jail_count side jail.

(** A move captures when the opposing side owns its destination. *)
Definition is_capture (spots : Spots) (move : MoveTuple.t) : bool :=
  match Py.getitem spots (MoveTuple.effective_end move) with
  | Ok target => Side.owns_spot (Side.other_side (MoveTuple.side move)) target
  | Raise _ => false
  end.

(** ** Applying a sequence of moves in order

    [applied st ms r]: starting from the state [st], the moves [ms] are
    handed to [_make_move] one after the other, each on the state the
    previous one returned; [r] is the last state, or the first exception. *)

Inductive applied : Spots * Jail -> MoveSet -> res (Spots * Jail) -> Prop :=
| applied_done (st : Spots * Jail) :
    applied st [] (Ok st)
| applied_raise (spots : Spots) (jail : Jail) (m : MoveTuple.t) (ms : MoveSet)
    (e : exn) :
    _make_move spots jail m = Raise e ->
    applied (spots, jail) (m :: ms) (Raise e)
| applied_step (spots : Spots) (jail : Jail) (m : MoveTuple.t) (ms : MoveSet)
    (st' : Spots * Jail) (r : res (Spots * Jail)) :
    _make_move spots jail m = Ok st' ->
    applied st' ms r ->
    applied (spots, jail) (m :: ms) r.

(** ** Positions used in the examples *)

(** WHITE on spot 1, two BLACK checkers on spot 3. *)
Definition blocked_spots : Spots := place 3 (-2) (place 1 1 empty_board).

(** WHITE on spot 1 and on its home spot 25. *)
Definition home_and_far_spots : Spots := place 25 1 (place 1 1 empty_board).

(** BLACK's only checker is on its home spot 0. *)
Definition black_home_spots : Spots := place 0 (-1) empty_board.

(** WHITE on spot 22 and BLACK's home spot empty. *)
Definition near_home_spots : Spots := place 22 1 empty_board.

(** WHITE on spot 1, one BLACK checker on spot 3. *)
Definition capture_spots : Spots := place 3 (-1) (place 1 1 empty_board).

(** BLACK has a checker on its home spot 0 and its last checker on spot 2. *)
Definition black_bearing_off_spots : Spots := place 2 (-1) black_home_spots.

(** ** Geometry of the two sides *)

Lemma progression_WHITE :
  Side.progression Side.WHITE = List.map Z.of_nat (seq 1 25).
Proof. reflexivity. Qed.

Lemma progression_BLACK :
  Side.progression Side.BLACK = List.map (fun k => 24 - Z.of_nat k) (seq 0 25).
Proof. reflexivity. Qed.

Lemma DICE_CHOICES_values : DICE_CHOICES = [1; 2; 3; 4; 5; 6].
Proof. reflexivity. Qed.

Lemma owns_spot_sign (side : Side.t) (v : Z) :
  Side.owns_spot side v = true <-> Z.sgn v = Side.token side.
Proof.
  unfold Side.owns_spot.
  rewrite andb_true_iff, negb_true_iff, Z.eqb_neq, Z.eqb_eq.
  destruct (Z.lt_trichotomy v 0) as [Hneg | [-> | Hpos]].
  - rewrite Z.abs_neq, Z.sgn_neg by lia.
    replace (v / - v) with (-1) by (apply Z.div_unique_exact; lia).
    intuition lia.
  - destruct side; simpl; intuition lia.
  - rewrite Z.abs_eq, Z.sgn_pos, Z.div_same by lia. intuition lia.
Qed.

Lemma owns_spot_WHITE (v : Z) : Side.owns_spot Side.WHITE v = true <-> 0 < v.
Proof. rewrite owns_spot_sign. simpl. lia. Qed.

Lemma owns_spot_BLACK (v : Z) : Side.owns_spot Side.BLACK v = true <-> v < 0.
Proof. rewrite owns_spot_sign. simpl. lia. Qed.

Lemma owns_spot_exclusive (side : Side.t) (v : Z) :
  Side.owns_spot side v = true ->
  Side.owns_spot (Side.other_side side) v = false.
Proof.
  intros H. apply not_true_is_false. revert H.
  rewrite !owns_spot_sign. destruct side; simpl; lia.
Qed.

(** ** Direction of a move *)

Lemma direction_degenerate (m : MoveTuple.t) :
  MoveTuple.effective_end m = MoveTuple.effective_start m ->
  MoveTuple.direction m = Raise ZeroDivisionError.
Proof. intros H. unfold MoveTuple.direction. rewrite H, Z.sub_diag. reflexivity. Qed.

Lemma direction_defined (m : MoveTuple.t) :
  MoveTuple.effective_end m <> MoveTuple.effective_start m ->
  MoveTuple.direction m
  = Ok (Z.sgn (MoveTuple.effective_end m - MoveTuple.effective_start m)).
Proof.
  intros H. unfold MoveTuple.direction.
  set (dist := MoveTuple.effective_end m - MoveTuple.effective_start m).
  assert (Hd : dist <> 0) by (unfold dist; lia).
  destruct (Z.eqb_spec (Z.abs dist) 0) as [E | _]; [lia |].
  f_equal. destruct (Z.lt_trichotomy dist 0) as [Hneg | [E | Hpos]]; [| lia |].
  - rewrite Z.abs_neq, Z.sgn_neg by lia.
    symmetry. apply Z.div_unique_exact; lia.
  - rewrite Z.abs_eq, Z.sgn_pos, Z.div_same by lia. reflexivity.
Qed.

(** ** The result monad and its loops *)

Lemma bind_Ok {A B : Type} (c : res A) (k : A -> res B) (b : B) :
  c ≫= k = Ok b -> exists a, c = Ok a /\ k a = Ok b.
Proof. destruct c as [a | e]; [eauto | discriminate]. Qed.

Lemma for_loop_ext {A S : Type} (f g : S -> A -> res S) (xs : list A) (s : S) :
  (forall s' x, x ∈ xs -> f s' x = g s' x) ->
  for_loop f xs s = for_loop g xs s.
Proof.
  revert s. induction xs as [| x xs IH]; intros s Hfg; [reflexivity |].
  simpl. rewrite (Hfg s x) by left.
  destruct (g s x) as [s' | e]; simpl; [| reflexivity].
  apply IH. intros s'' y Hy. apply Hfg. by right.
Qed.

Lemma for_loop_never {A S : Type} (f : S -> A -> res S) (e : exn) (xs : list A) (s : S) :
  (forall s' x, x ∈ xs -> f s' x <> Raise e) ->
  for_loop f xs s <> Raise e.
Proof.
  revert s. induction xs as [| x xs IH]; intros s Hf; [discriminate |].
  simpl. pose proof (Hf s x ltac:(left)) as Hx.
  destruct (f s x) as [s' | e']; simpl; [| congruence].
  apply IH. intros s'' y Hy. apply Hf. by right.
Qed.

Lemma applied_for_loop (ms : MoveSet) (st : Spots * Jail) :
  applied st ms
    (for_loop (fun '(spots, jail) move => _make_move spots jail move) ms st).
Proof.
  revert st. induction ms as [| m ms IH]; intros [spots jail]; simpl.
  - constructor.
  - destruct (_make_move spots jail m) as [st' | e] eqn:E; simpl.
    + eapply applied_step; eauto.
    + by apply applied_raise.
Qed.

Lemma applied_functional (st : Spots * Jail) (ms : MoveSet)
    (r1 r2 : res (Spots * Jail)) :
  applied st ms r1 -> applied st ms r2 -> r1 = r2.
Proof.
  intros H1. revert r2.
  induction H1 as [st | spots jail m ms e E | spots jail m ms st' r E _ IH];
    intros r2 H2; inversion H2; subst; try congruence.
  apply IH. congruence.
Qed.

(** ** Sums and counts *)

Lemma sum_from (l : list Z) (a : Z) : fold_left Z.add l a = a + Py.sum l.
Proof.
  unfold Py.sum. revert a. induction l as [| x l IH]; intros a; simpl; [lia |].
  rewrite (IH (a + x)), (IH (0 + x)). lia.
Qed.

Lemma sum_cons (x : Z) (l : list Z) : Py.sum (x :: l) = x + Py.sum l.
Proof. unfold Py.sum at 1. simpl. apply sum_from. Qed.

Lemma board_count_insert (side : Side.t) (spots : Spots) (k : nat) (old new : Z) :
  spots !! k = Some old ->
  board_count side (<[k := new]> spots)
  = board_count side spots - checkers_of side old + checkers_of side new.
Proof.
  unfold board_count. revert k.
  induction spots as [| v spots IH]; intros [| k] Hk; try discriminate; simpl in *.
  - injection Hk as ->. rewrite !sum_cons. lia.
  - rewrite !sum_cons, (IH k Hk). lia.
Qed.

(** ** play on an empty sequence *)

(** C10. [play] called with an empty chosen sequence never raises and
    returns the board and the jail it was given: [all] of no move is true,
    so the optimal moves are not computed, and the loop applies nothing. *)
Theorem play_empty_sequence (spots : Spots) (jail : Jail) (side : Side.t)
    (rolled_dice : list Z) :
  play spots jail side [] rolled_dice = Ok (spots, jail).
Proof. reflexivity. Qed.

(** ** roll_dice *)

Lemma in_DICE_CHOICES (a : Z) : a ∈ DICE_CHOICES <-> 1 <= a <= 6.
Proof.
  rewrite DICE_CHOICES_values, !elem_of_cons, elem_of_nil. lia.
Qed.

(** C9. Whatever the two draws [a] and [b] from DICE_CHOICES, every value
    that [roll_dice] returns is between 1 and 6; equal draws give exactly
    four copies of the value, different draws give exactly the two values
    in ascending order. *)
Theorem roll_dice_outcomes (a b : Z) :
  a ∈ DICE_CHOICES -> b ∈ DICE_CHOICES ->
  roll_dice (roll_dice_from a b)
  /\ Forall (fun x => 1 <= x <= 6) (roll_dice_from a b)
  /\ (a = b -> roll_dice_from a b = [a; a; a; a])
  /\ (a <> b ->
      roll_dice_from a b = [Z.min a b; Z.max a b] /\ Z.min a b < Z.max a b).
Proof.
  intros Ha Hb. split; [by constructor |].
  apply in_DICE_CHOICES in Ha, Hb.
  assert (Hs : roll_dice_from a b
               = if a =? b then [a; a; a; a]
                 else [Z.min a b; Z.max a b]).
  { unfold roll_dice_from, Py.sorted.
    destruct (Z.eqb_spec a b) as [-> | Hne]; cbn.
    - repeat (rewrite Z.leb_refl; cbn). reflexivity.
    - destruct (Z.leb_spec a b).
      + by rewrite Z.min_l, Z.max_r by lia.
      + by rewrite Z.min_r, Z.max_l by lia. }
  rewrite Hs. destruct (Z.eqb_spec a b) as [-> | Hne].
  - split; [repeat (constructor; [lia |]); constructor | split; [done | lia]].
  - split; [repeat (constructor; [lia |]); constructor | split; [congruence |]].
    intros _. split; [reflexivity | lia].
Qed.

Lemma roll_dice_outcomes_witness :
  roll_dice_from 5 2 = [2; 5] /\ roll_dice_from 3 3 = [3; 3; 3; 3].
Proof.
  split.
  - apply (roll_dice_outcomes 5 2); [apply in_DICE_CHOICES; lia | apply in_DICE_CHOICES; lia | lia].
  - apply (roll_dice_outcomes 3 3); [apply in_DICE_CHOICES; lia | apply in_DICE_CHOICES; lia | reflexivity].
Defined.

(** ** Moves of length zero *)

Lemma make_move_degenerate (spots : Spots) (jail : Jail) (m : MoveTuple.t) :
  MoveTuple.effective_end m = MoveTuple.effective_start m ->
  _make_move spots jail m = Raise ZeroDivisionError.
Proof.
  intros H. unfold _make_move. rewrite (direction_degenerate m H). reflexivity.
Qed.

(** C8. A move whose effective end is its effective start is not answered
    with IllegalMoveException: the first thing [_make_move] does is to
    compute the move's direction, which divides by the distance 0, and the
    ZeroDivisionError leaves [_make_move]. *)
Theorem make_move_zero_length (spots : Spots) (jail : Jail) (m : MoveTuple.t) :
  MoveTuple.effective_end m = MoveTuple.effective_start m ->
  MoveTuple.direction m = Raise ZeroDivisionError
  /\ _make_move spots jail m = Raise ZeroDivisionError.
Proof.
  intros H. split; [by apply direction_degenerate | by apply make_move_degenerate].
Qed.

Lemma make_move_zero_length_witness :
  _make_move (place 25 1 empty_board) [] (MoveTuple.Make Side.WHITE 25 1)
  = Raise ZeroDivisionError.
Proof.
  apply (make_move_zero_length (place 25 1 empty_board) []
           (MoveTuple.Make Side.WHITE 25 1)).
  reflexivity.
Defined.

(** ** Blocked points *)

Lemma is_stompable_negative (spot_value : Z) :
  spot_value < 0 -> _is_stompable spot_value = true.
Proof. intros H. unfold _is_stompable. apply Z.ltb_lt. lia. Qed.

(** C2. WHITE moves from spot 1 by 2 onto spot 3, which holds two BLACK
    checkers.  [_is_stompable] compares the signed value -2 with 2 and
    lets the capture go on; one BLACK checker is taken, the other still
    owns the spot, and incrementing it for WHITE raises ValueError, not
    IllegalMoveException. *)
Theorem make_move_onto_black_point :
  MoveTuple.effective_end (MoveTuple.Make Side.WHITE 1 2) = 3
  /\ Py.getitem blocked_spots 3 = Ok (-2)
  /\ Side.owns_spot Side.BLACK (-2) = true
  /\ _get_number_present (-2) = 2
  /\ _is_stompable (-2) = true
  /\ _make_move blocked_spots [] (MoveTuple.Make Side.WHITE 1 2) = Raise ValueError.
Proof. repeat split. Qed.

(** ** Starting spots of the enumerator *)

Lemma start_spots_of_first_spot (side : Side.t) (spots : Spots) :
  start_spots_of side spots
  = match spots with
    | [] => []
    | spot :: _ => if Side.owns_spot side spot then [Side.home side] else []
    end.
Proof.
  destruct spots as [| spot spots]; destruct side; try reflexivity;
    unfold start_spots_of; simpl; by destruct (Side.owns_spot _ spot).
Qed.

(** C1. On the position of the repository's test (one WHITE checker on
    spot 20, dice 5 and 6) spot 20 is owned by WHITE and the move from it
    by 5 is accepted by [_make_move], but the enumerator has no starting
    spot and returns the empty sequence alone.  With a WHITE checker in
    jail the move from jail is accepted by [_make_move], and the
    enumerator again has no starting spot.  With a BLACK checker in jail
    and one on spot 0, the enumerator starts from spot 0. *)
Theorem start_spots_of_test_position :
  Py.getitem test_spots 20 = Ok 1
  /\ Side.owns_spot Side.WHITE 1 = true
  /\ _make_move test_spots [] (MoveTuple.Make Side.WHITE 20 5)
     = Ok (place 25 1 empty_board, [])
  /\ start_spots_of Side.WHITE test_spots = []
  /\ _get_all_move_sets test_spots [] Side.WHITE [5; 6] = Ok [[]]
  /\ _make_move empty_board [(Side.WHITE, 1)]
       (MoveTuple.Make Side.WHITE START_FROM_JAIL_FLAG 5)
     = Ok (place 5 1 empty_board, [(Side.WHITE, 0)])
  /\ start_spots_of Side.WHITE empty_board = []
  /\ _get_all_move_sets empty_board [(Side.WHITE, 1)] Side.WHITE [5; 6] = Ok [[]]
  /\ jail_count Side.BLACK [(Side.BLACK, -1)] = 1
  /\ start_spots_of Side.BLACK black_home_spots = [0].
Proof. repeat split. Qed.

(** ** The optimal move sets *)

Lemma max_from (l : list Z) (x : Z) :
  let b := fold_left Z.max l x in
  (b = x \/ b ∈ l) /\ x <= b /\ (forall y, y ∈ l -> y <= b).
Proof.
  revert x. induction l as [| z l IH]; intros x; simpl.
  - split; [by left |]. split; [lia |]. intros y Hy. by apply elem_of_nil in Hy.
  - destruct (IH (Z.max x z)) as (Hin & Hle & Hall).
    split; [| split].
    + destruct Hin as [-> | Hin]; [| right; by right].
      destruct (Z.max_spec x z) as [[_ ->] | [_ ->]]; [right; left | by left].
    + lia.
    + intros y Hy. apply elem_of_cons in Hy as [-> | Hy]; [lia | by apply Hall].
Qed.

Lemma max_nonempty (l : list Z) :
  l <> [] ->
  exists b, Py.max l = Ok b /\ b ∈ l /\ (forall y, y ∈ l -> y <= b).
Proof.
  destruct l as [| x l]; [done |]. intros _.
  destruct (max_from l x) as (Hin & Hle & Hall).
  exists (fold_left Z.max l x). split; [reflexivity |]. split.
  - destruct Hin as [-> | Hin]; [left | by right].
  - intros y Hy. apply elem_of_cons in Hy as [-> | Hy]; [lia | by apply Hall].
Qed.

Lemma filter_zip_ratings {A : Type} (f : A -> Z) (best : Z) (l : list A) :
  List.map fst (List.filter (fun p => snd p =? best) (combine l (List.map f l)))
  = List.filter (fun a => f a =? best) l.
Proof.
  induction l as [| a l IH]; [reflexivity |]. simpl.
  destruct (f a =? best); simpl; by rewrite IH.
Qed.

(** The selection step on any non-empty list of move sets: [max] of the
    ratings returns, and the move sets kept are exactly those of the list
    whose rating is at least the rating of every move set of the list. *)
Lemma selection_keeps_best (all_legal_move_sets : list MoveSet) :
  all_legal_move_sets <> [] ->
  exists best_rating,
    Py.max (List.map rating all_legal_move_sets) = Ok best_rating
    /\ forall move_set,
        move_set ∈ (list_to_set
                      (List.map fst
                         (List.filter (fun p => snd p =? best_rating)
                            (combine all_legal_move_sets
                               (List.map rating all_legal_move_sets))))
                    : gset MoveSet) <->
        (move_set ∈ all_legal_move_sets
         /\ forall other, other ∈ all_legal_move_sets ->
                          rating other <= rating move_set).
Proof.
  intros Hne.
  destruct (max_nonempty (List.map rating all_legal_move_sets))
    as (best & Hbest & Hin & Hmax).
  { by destruct all_legal_move_sets. }
  exists best. split; [done |]. intros ms.
  rewrite filter_zip_ratings, elem_of_list_to_set.
  rewrite !list_elem_of_In, filter_In, Z.eqb_eq, <- !list_elem_of_In.
  split.
  - intros [Hms <-]. split; [done |]. intros other Ho.
    apply Hmax, list_elem_of_In, in_map, list_elem_of_In, Ho.
  - intros [Hms Hge]. split; [done |].
    apply list_elem_of_In, in_map_iff in Hin as (ms' & <- & Hms').
    apply Z.le_antisymm.
    + apply Hmax, list_elem_of_In, in_map, list_elem_of_In, Hms.
    + apply Hge, list_elem_of_In, Hms'.
Qed.

(** C3. BLACK has a checker on its home spot 0 and its last checker on
    spot 2, and the dice are 3 and 5.  Bearing the checker off with the 3
    is accepted by [_make_move], so a legal sequence exists; but the
    enumerator starts from spot 0 only and is left by the
    ZeroDivisionError of the move of length 0, and
    [_get_all_optimal_moves] raises it instead of returning a non-empty
    set.  On the position of the repository's test, where the enumerator
    does return, the optimal moves are the empty sequence alone, of
    rating 0, although the move from spot 20 by 5, of rating 5, is
    accepted by [_make_move]. *)
Theorem optimal_moves_black_bearing_off :
  _make_move black_bearing_off_spots [] (MoveTuple.Make Side.BLACK 2 3)
  = Ok (place 0 (-2) empty_board, [])
  /\ _get_all_move_sets black_bearing_off_spots [] Side.BLACK [3; 5]
     = Raise ZeroDivisionError
  /\ _get_all_optimal_moves black_bearing_off_spots [] Side.BLACK [3; 5]
     = Raise ZeroDivisionError
  /\ _make_move test_spots [] (MoveTuple.Make Side.WHITE 20 5)
     = Ok (place 25 1 empty_board, [])
  /\ rating [MoveTuple.Make Side.WHITE 20 5] = 5
  /\ rating [] = 0
  /\ _get_all_optimal_moves test_spots [] Side.WHITE [5; 6] = Ok {[ [] ]}.
Proof. repeat split. Qed.

(** ** play *)

(** If every move of the chosen move set uses its whole roll, [play]
    computes no optimal moves and applies the move set: its result is the
    result of handing the moves to [_make_move] in order, each on the state
    the previous one returned. *)
Lemma play_whole_rolls_applied (spots : Spots) (jail : Jail) (side : Side.t)
    (move_set : MoveSet) (rolled_dice : list Z) :
  forallb MoveTuple.uses_whole_roll move_set = true ->
  applied (spots, jail) move_set (play spots jail side move_set rolled_dice).
Proof. unfold play. intros ->. simpl. apply applied_for_loop. Qed.

(** When the optimal moves are needed and their computation raises, the
    exception leaves [play]. *)
Lemma play_optimal_raises (spots : Spots) (jail : Jail) (side : Side.t)
    (move_set : MoveSet) (rolled_dice : list Z) (e : exn) :
  forallb MoveTuple.uses_whole_roll move_set = false ->
  _get_all_optimal_moves spots jail side rolled_dice = Raise e ->
  play spots jail side move_set rolled_dice = Raise e.
Proof. unfold play. intros -> ->. reflexivity. Qed.

(** C4. BLACK has a checker on its home spot 0 and its last checker on
    spot 2, the dice are 3 and 5, and BLACK chooses to bear the checker
    off with the 3.  The move does not use its whole roll (its distance is
    2), so [play] computes the optimal moves; [_make_move] accepts the
    move, but the computation of the optimal moves raises
    ZeroDivisionError, and so does [play]: it neither raises
    IllegalMoveException nor applies the move. *)
Theorem play_black_bearing_off :
  forallb MoveTuple.uses_whole_roll [MoveTuple.Make Side.BLACK 2 3] = false
  /\ MoveTuple.effective_distance (MoveTuple.Make Side.BLACK 2 3) = 2
  /\ _make_move black_bearing_off_spots [] (MoveTuple.Make Side.BLACK 2 3)
     = Ok (place 0 (-2) empty_board, [])
  /\ _get_all_optimal_moves black_bearing_off_spots [] Side.BLACK [3; 5]
     = Raise ZeroDivisionError
  /\ play black_bearing_off_spots [] Side.BLACK
       [MoveTuple.Make Side.BLACK 2 3] [3; 5]
     = Raise ZeroDivisionError.
Proof. repeat split. Qed.

(** ** The enumerator's recursion *)

Lemma other_dice_length (dice : list Z) (die : Z) (other_dice : list Z) :
  (die, other_dice) ∈ _get_die_and_other_dice dice ->
  S (length other_dice) = length dice.
Proof.
  unfold _get_die_and_other_dice. intros H.
  apply elem_of_lookup_imap in H as (i & y & Heq & Hi).
  injection Heq as _ ->. apply lookup_lt_Some in Hi.
  rewrite length_app, length_take, length_drop. lia.
Qed.

Lemma index_python_exn (len : nat) (i : Z) : Py.index len i <> Raise OutOfFuel.
Proof. unfold Py.index. repeat case_match; discriminate. Qed.

Lemma getitem_python_exn (l : list Z) (i : Z) : Py.getitem l i <> Raise OutOfFuel.
Proof.
  unfold Py.getitem. pose proof (index_python_exn (length l) i).
  destruct (Py.index (length l) i); simpl; [case_match; discriminate | congruence].
Qed.

Lemma setitem_python_exn (l : list Z) (i v : Z) : Py.setitem l i v <> Raise OutOfFuel.
Proof.
  unfold Py.setitem. pose proof (index_python_exn (length l) i).
  destruct (Py.index (length l) i); simpl; [discriminate | congruence].
Qed.

Lemma all_absent_python_exn (spots : Spots) (side : Side.t) (idxs : list Z) :
  all_absent spots side idxs <> Raise OutOfFuel.
Proof.
  induction idxs as [| i idxs IH]; simpl; [discriminate |].
  pose proof (getitem_python_exn spots i).
  destruct (Py.getitem spots i); simpl; [| congruence].
  repeat case_match; done.
Qed.

Ltac python_exn_step :=
  match goal with
  | |- context [Py.getitem ?l ?i] =>
      pose proof (getitem_python_exn l i);
      destruct (Py.getitem l i); simpl; [| congruence]
  | |- context [Py.setitem ?l ?i ?v] =>
      pose proof (setitem_python_exn l i v);
      destruct (Py.setitem l i v); simpl; [| congruence]
  | |- context [_decrement_for_side ?v ?s] =>
      unfold _decrement_for_side at 1;
      destruct (negb (Side.owns_spot s v)); simpl; [discriminate |]
  | |- context [_increment_for_side ?v ?s] =>
      unfold _increment_for_side at 1;
      destruct (Side.owns_spot (Side.other_side s) v); simpl; [discriminate |]
  end.

Lemma decrement_start_python_exn (spots : Spots) (jail : Jail) (m : MoveTuple.t) :
  decrement_start spots jail m <> Raise OutOfFuel.
Proof.
  unfold decrement_start.
  destruct (negb (MoveTuple.starts_in_jail m)); simpl;
    repeat python_exn_step; discriminate.
Qed.

Lemma handle_stomping_python_exn (spots : Spots) (jail : Jail) (m : MoveTuple.t) :
  handle_stomping spots jail m <> Raise OutOfFuel.
Proof.
  unfold handle_stomping. python_exn_step.
  destruct (Side.owns_spot _ _); [| discriminate].
  simpl. destruct (negb (_is_stompable _)); [discriminate |].
  repeat python_exn_step. discriminate.
Qed.

Lemma make_move_python_exn (spots : Spots) (jail : Jail) (m : MoveTuple.t) :
  _make_move spots jail m <> Raise OutOfFuel.
Proof.
  unfold _make_move, MoveTuple.direction.
  destruct (Z.abs _ =? 0); simpl; [discriminate |].
  destruct (negb (_ =? Side.direction _)); [discriminate |].
  destruct (MoveTuple.effective_end m =? Side.home _); simpl.
  - unfold _all_in_last_quarter.
    pose proof (all_absent_python_exn spots (MoveTuple.side m)
                  (Py.slice_to (Side.progression (MoveTuple.side m)) (-7))).
    destruct (all_absent _ _ _) as [[] | e]; simpl; [| discriminate | congruence].
    pose proof (decrement_start_python_exn spots (Py.dict jail) m).
    destruct (decrement_start _ _ _) as [[s1 j1] | e]; simpl; [| congruence].
    pose proof (handle_stomping_python_exn s1 j1 m).
    destruct (handle_stomping _ _ _) as [[s2 j2] | e]; simpl; [| congruence].
    repeat python_exn_step. discriminate.
  - pose proof (decrement_start_python_exn spots (Py.dict jail) m).
    destruct (decrement_start _ _ _) as [[s1 j1] | e]; simpl; [| congruence].
    pose proof (handle_stomping_python_exn s1 j1 m).
    destruct (handle_stomping _ _ _) as [[s2 j2] | e]; simpl; [| congruence].
    repeat python_exn_step. discriminate.
Qed.

Local Opaque for_loop _get_die_and_other_dice.

(** Any budget that covers the number of dice gives the same result, and
    the budget never runs out: the source's recursion terminates. *)
Lemma fuel_irrelevant (n m : nat) (spots : Spots) (jail : Jail) (side : Side.t)
    (dice : list Z) :
  (length dice <= n)%nat -> (length dice <= m)%nat ->
  get_all_move_sets_fuel n spots jail side dice
  = get_all_move_sets_fuel m spots jail side dice.
Proof.
  revert m spots jail dice.
  induction n as [| n IH]; intros m spots jail dice Hn Hm;
    (destruct dice as [| d dice]; [by destruct m |]); simpl in Hn, Hm; [lia |].
  destruct m as [| m]; [lia |]. simpl.
  destruct (start_spots_of side spots) as [| s0 ss]; [reflexivity |].
  apply for_loop_ext. intros acc start_spot _.
  apply for_loop_ext. intros acc' [die other_dice] Hin.
  apply other_dice_length in Hin. simpl in Hin.
  destruct (_make_move spots jail _) as [[next_spots next_jail] | e];
    [| reflexivity].
  rewrite (IH m next_spots next_jail other_dice) by lia. reflexivity.
Qed.

Lemma fuel_never_out (n : nat) (spots : Spots) (jail : Jail) (side : Side.t)
    (dice : list Z) :
  (length dice <= n)%nat ->
  get_all_move_sets_fuel n spots jail side dice <> Raise OutOfFuel.
Proof.
  revert spots jail dice.
  induction n as [| n IH]; intros spots jail dice Hn;
    destruct dice as [| d dice]; try discriminate; simpl in Hn; [lia |].
  simpl. destruct (start_spots_of side spots) as [| s0 ss]; [discriminate |].
  apply for_loop_never. intros acc start_spot _.
  apply for_loop_never. intros acc' [die other_dice] Hin.
  apply other_dice_length in Hin. simpl in Hin.
  pose proof (make_move_python_exn spots jail
                (MoveTuple.Make side start_spot die)) as Hmm.
  destruct (_make_move spots jail _) as [[next_spots next_jail] | e].
  - specialize (IH next_spots next_jail other_dice ltac:(lia)).
    destruct (get_all_move_sets_fuel n next_spots next_jail side other_dice);
      simpl; [discriminate | congruence].
  - destruct e; congruence.
Qed.

Lemma fuel_is_enough (fuel : nat) (spots : Spots) (jail : Jail) (side : Side.t)
    (dice : list Z) :
  (length dice <= fuel)%nat ->
  get_all_move_sets_fuel fuel spots jail side dice
  = _get_all_move_sets spots jail side dice
  /\ _get_all_move_sets spots jail side dice <> Raise OutOfFuel.
Proof.
  intros Hfuel. split; [by apply fuel_irrelevant |].
  by apply fuel_never_out.
Qed.

Local Transparent for_loop _get_die_and_other_dice.

(** ** Dicts *)

Section DictFacts.
Context {K V : Type} `{EqDecision K}.
Implicit Types (d : list (K * V)) (k : K) (v : V).

Lemma dict_get_set d k v k' default :
  Py.dict_get (Py.dict_set d k v) k' default
  = if decide (k = k') then v else Py.dict_get d k' default.
Proof.
  induction d as [| [k0 v0] d IH]; csimpl.
  - repeat case_decide; congruence.
  - destruct (decide (k0 = k)) as [-> | Hne]; csimpl.
    + repeat case_decide; congruence.
    + rewrite IH. repeat case_decide; congruence.
Qed.

Lemma dict_set_keys d k v :
  k ∈ d.*1 -> (Py.dict_set d k v).*1 = d.*1.
Proof.
  induction d as [| [k0 v0] d IH]; csimpl; intros Hin.
  - by apply elem_of_nil in Hin.
  - destruct (decide (k0 = k)) as [-> | Hne]; csimpl; [reflexivity |].
    apply elem_of_cons in Hin as [-> | Hin]; [done |]. by rewrite IH.
Qed.

Lemma dict_set_fresh d k v :
  k ∉ d.*1 -> Py.dict_set d k v = d ++ [(k, v)].
Proof.
  induction d as [| [k0 v0] d IH]; csimpl; intros Hin; [reflexivity |].
  apply not_elem_of_cons in Hin as [Hne Hin].
  rewrite decide_False by congruence. by rewrite IH.
Qed.

Lemma dict_set_NoDup d k v : NoDup d.*1 -> NoDup (Py.dict_set d k v).*1.
Proof.
  intros Hd. destruct (decide (k ∈ d.*1)) as [Hin | Hin].
  - by rewrite dict_set_keys.
  - rewrite dict_set_fresh, fmap_app by done. csimpl.
    apply NoDup_app. split; [done |]. split.
    + intros x Hx Hk. apply list_elem_of_singleton in Hk as ->. done.
    + apply NoDup_singleton.
Qed.

Lemma dict_from_NoDup (pairs acc : list (K * V)) :
  NoDup acc.*1 ->
  NoDup (fold_left (fun d kv => Py.dict_set d kv.1 kv.2) pairs acc).*1.
Proof.
  revert acc. induction pairs as [| [k v] pairs IH]; intros acc Hacc; csimpl;
    [done |]. apply IH. by apply dict_set_NoDup.
Qed.

Lemma dict_NoDup (pairs : list (K * V)) : NoDup (Py.dict pairs).*1.
Proof. apply dict_from_NoDup. constructor. Qed.

Lemma dict_from_unique d (acc : list (K * V)) :
  NoDup (acc ++ d).*1 ->
  fold_left (fun d kv => Py.dict_set d kv.1 kv.2) d acc = acc ++ d.
Proof.
  revert acc. induction d as [| [k v] d IH]; intros acc Hnd; csimpl.
  - by rewrite app_nil_r.
  - rewrite dict_set_fresh.
    + rewrite IH; rewrite <- app_assoc; done.
    + rewrite fmap_app in Hnd. apply NoDup_app in Hnd as (_ & Hdisj & _).
      intros Hk. apply (Hdisj k Hk). csimpl. left.
Qed.

(** A dict is left as it is by [dict(d.items())]. *)
Lemma dict_of_dict d : NoDup d.*1 -> Py.dict d = d.
Proof. intros Hd. unfold Py.dict. by rewrite dict_from_unique. Qed.

End DictFacts.

(** ** Counts under an increment or a decrement *)

Lemma other_side_involutive (side : Side.t) :
  Side.other_side (Side.other_side side) = side.
Proof. by destruct side. Qed.

Lemma other_side_differs (side : Side.t) : Side.other_side side <> side.
Proof. by destruct side. Qed.

Lemma owns_spot_false_WHITE (v : Z) : Side.owns_spot Side.WHITE v = false <-> v <= 0.
Proof. rewrite <- not_true_iff_false, owns_spot_WHITE. lia. Qed.

Lemma owns_spot_false_BLACK (v : Z) : Side.owns_spot Side.BLACK v = false <-> 0 <= v.
Proof. rewrite <- not_true_iff_false, owns_spot_BLACK. lia. Qed.

Ltac owns_to_Z :=
  repeat match goal with
    | H : Side.owns_spot Side.WHITE _ = true |- _ => apply owns_spot_WHITE in H
    | H : Side.owns_spot Side.BLACK _ = true |- _ => apply owns_spot_BLACK in H
    | H : Side.owns_spot Side.WHITE _ = false |- _ => apply owns_spot_false_WHITE in H
    | H : Side.owns_spot Side.BLACK _ = false |- _ => apply owns_spot_false_BLACK in H
    end.

Ltac side_cases side :=
  destruct side;
  change (Side.other_side Side.WHITE) with Side.BLACK in *;
  change (Side.other_side Side.BLACK) with Side.WHITE in *;
  change (Side.token Side.WHITE) with 1 in *;
  change (Side.token Side.BLACK) with (-1) in *.

Ltac count_cases :=
  unfold checkers_of, _get_number_present in *;
  repeat match goal with
    | |- context [Side.owns_spot ?s ?v] => destruct (Side.owns_spot s v) eqn:?
    end;
  owns_to_Z; lia.

Ltac owns_false :=
  first [apply owns_spot_false_WHITE | apply owns_spot_false_BLACK]; lia.

Lemma decrement_Ok (v : Z) (side : Side.t) (v' : Z) :
  _decrement_for_side v side = Ok v' ->
  Side.owns_spot side v = true /\ v' = v - Side.token side.
Proof.
  unfold _decrement_for_side.
  destruct (Side.owns_spot side v); simpl; [| discriminate].
  intros [= <-]. split; [reflexivity | lia].
Qed.

Lemma increment_Ok (v : Z) (side : Side.t) (v' : Z) :
  _increment_for_side v side = Ok v' ->
  Side.owns_spot (Side.other_side side) v = false /\ v' = v + Side.token side.
Proof.
  unfold _increment_for_side.
  destruct (Side.owns_spot (Side.other_side side) v); simpl; [discriminate |].
  intros [= <-]. split; [reflexivity | lia].
Qed.

Lemma checkers_of_decrement (side : Side.t) (v : Z) :
  Side.owns_spot side v = true ->
  checkers_of side (v - Side.token side) = checkers_of side v - 1
  /\ checkers_of (Side.other_side side) (v - Side.token side) = 0
  /\ checkers_of (Side.other_side side) v = 0
  /\ Side.owns_spot (Side.other_side side) (v - Side.token side) = false.
Proof.
  intros H. side_cases side; owns_to_Z;
    (split; [count_cases | split; [count_cases | split; [count_cases | owns_false]]]).
Qed.

Lemma checkers_of_increment (side : Side.t) (v : Z) :
  Side.owns_spot (Side.other_side side) v = false ->
  checkers_of side (v + Side.token side) = checkers_of side v + 1
  /\ checkers_of (Side.other_side side) (v + Side.token side) = 0
  /\ checkers_of (Side.other_side side) v = 0.
Proof.
  intros H. side_cases side; owns_to_Z;
    (split; [count_cases | split; count_cases]).
Qed.

(** ** Reading and writing a spot *)

Lemma index_lt (len : nat) (i : Z) (k : nat) :
  Py.index len i = Ok k -> (k < len)%nat.
Proof.
  unfold Py.index.
  destruct ((0 <=? i) && (i <? Z.of_nat len)) eqn:E1.
  - intros [= <-]. lia.
  - destruct ((- Z.of_nat len <=? i) && (i <? 0)) eqn:E2; [| discriminate].
    intros [= <-]. lia.
Qed.

Lemma getitem_Ok (spots : Spots) (i v : Z) :
  Py.getitem spots i = Ok v <->
  exists k, Py.index (length spots) i = Ok k /\ spots !! k = Some v.
Proof.
  unfold Py.getitem. destruct (Py.index (length spots) i) as [k | e]; simpl.
  - destruct (spots !! k) as [w |] eqn:E; split.
    + intros [= ->]. eauto.
    + intros (k' & [= <-] & Hk). congruence.
    + discriminate.
    + intros (k' & [= <-] & Hk). congruence.
  - split; [discriminate | intros (k & [=] & _)].
Qed.

Lemma setitem_Ok (spots : Spots) (i v : Z) (spots' : Spots) :
  Py.setitem spots i v = Ok spots' <->
  exists k, Py.index (length spots) i = Ok k /\ spots' = <[k := v]> spots.
Proof.
  unfold Py.setitem. destruct (Py.index (length spots) i) as [k | e]; simpl.
  - split; [intros [= <-]; eauto | intros (k' & [= <-] & ->); reflexivity].
  - split; [discriminate | intros (k & [=] & _)].
Qed.

(** ** The three steps of _make_move on the counts *)

Lemma decrement_start_Ok (spots : Spots) (jail : Jail) (m : MoveTuple.t)
    (spots1 : Spots) (jail1 : Jail) :
  decrement_start spots jail m = Ok (spots1, jail1) ->
  let side := MoveTuple.side m in
  let other := Side.other_side side in
  board_count side spots1 + entry_count side jail1
  = board_count side spots + entry_count side jail - 1
  /\ board_count other spots1 = board_count other spots
  /\ entry_count other jail1 = entry_count other jail
  /\ length spots1 = length spots
  /\ (NoDup jail.*1 -> NoDup jail1.*1)
  /\ (forall k v1, spots1 !! k = Some v1 ->
        exists v0, spots !! k = Some v0
                   /\ Side.owns_spot other v1 = Side.owns_spot other v0
                   /\ (Side.owns_spot other v0 = true -> v1 = v0)).
Proof.
  intros H. cbv zeta. unfold decrement_start in H.
  set (side := MoveTuple.side m) in *.
  destruct (negb (MoveTuple.starts_in_jail m)).
  - apply bind_Ok in H as (old & Hget & H).
    apply bind_Ok in H as (new & Hdec & H).
    apply bind_Ok in H as (spots' & Hset & [= <- <-]).
    apply getitem_Ok in Hget as (k & Hk & Hold).
    apply setitem_Ok in Hset as (k' & Hk' & ->).
    assert (k' = k) as -> by congruence.
    apply decrement_Ok in Hdec as (Hown & ->).
    destruct (checkers_of_decrement side old Hown) as (Hs & Ho1 & Ho2 & Hno).
    rewrite !(board_count_insert _ _ _ old) by done.
    rewrite Hs, Ho1, Ho2, length_insert.
    split; [lia |]. split; [lia |]. split; [done |]. split; [done |].
    split; [done |]. intros j v1 Hj.
    destruct (decide (j = k)) as [-> | Hne].
    + rewrite list_lookup_insert_eq in Hj by (by eapply lookup_lt_Some).
      injection Hj as <-. exists old. split; [done |].
      rewrite Hno, (owns_spot_exclusive side old Hown). split; [done | discriminate].
    + rewrite list_lookup_insert_ne in Hj by done. eauto.
  - apply bind_Ok in H as (new & Hdec & [= <- <-]).
    apply decrement_Ok in Hdec as (Hown & ->).
    destruct (checkers_of_decrement side _ Hown) as (Hs & _).
    unfold entry_count. rewrite !dict_get_set.
    rewrite decide_True by done.
    rewrite decide_False by (symmetry; apply other_side_differs).
    rewrite Hs.
    split; [lia |]. split; [done |]. split; [done |]. split; [done |].
    split; [apply dict_set_NoDup | eauto].
Qed.

Lemma handle_stomping_Ok (spots1 : Spots) (jail1 : Jail) (m : MoveTuple.t)
    (spots2 : Spots) (jail2 : Jail) :
  handle_stomping spots1 jail1 m = Ok (spots2, jail2) ->
  let side := MoveTuple.side m in
  let other := Side.other_side side in
  exists k target,
    Py.index (length spots1) (MoveTuple.effective_end m) = Ok k
    /\ spots1 !! k = Some target
    /\ if Side.owns_spot other target
       then spots2 = <[k := target - Side.token other]> spots1
            /\ board_count other spots2 = board_count other spots1 - 1
            /\ board_count side spots2 = board_count side spots1
            /\ entry_count other jail2 = entry_count other jail1 + 1
            /\ entry_count side jail2 = entry_count side jail1
            /\ (NoDup jail1.*1 -> NoDup jail2.*1)
       else spots2 = spots1 /\ jail2 = jail1.
Proof.
  intros H. cbv zeta. unfold handle_stomping in H.
  set (side := MoveTuple.side m) in *.
  destruct (Py.getitem spots1 (MoveTuple.effective_end m)) as [target | e] eqn:Hget;
    simpl in H; [| discriminate].
  apply getitem_Ok in Hget as (k & Hk & Htarget).
  exists k, target. split; [done |]. split; [done |].
  destruct (Side.owns_spot (Side.other_side side) target) eqn:Hown.
  - destruct (negb (_is_stompable target)); [discriminate |].
    apply bind_Ok in H as (new & Hdec & H).
    apply bind_Ok in H as (spots' & Hset & H).
    apply bind_Ok in H as (jailed & Hinc & [= <- <-]).
    apply setitem_Ok in Hset as (k' & Hk' & ->).
    assert (k' = k) as -> by congruence.
    apply decrement_Ok in Hdec as (_ & ->).
    apply increment_Ok in Hinc as (Hjail & ->).
    destruct (checkers_of_decrement _ target Hown) as (Ho & Hs1 & Hs2 & _).
    destruct (checkers_of_increment _ _ Hjail) as (Hj & _).
    rewrite other_side_involutive in Hs1, Hs2.
    rewrite !(board_count_insert _ _ _ target) by done.
    unfold entry_count. rewrite !dict_get_set.
    rewrite decide_True by done.
    rewrite decide_False by apply other_side_differs.
    rewrite Ho, Hs1, Hs2, Hj.
    split; [done |]. split; [lia |]. split; [lia |]. split; [done |].
    split; [done | apply dict_set_NoDup].
  - by injection H as <- <-.
Qed.

Lemma two_sides (side s : Side.t) : s = side \/ s = Side.other_side side.
Proof. destruct side, s; auto. Qed.

(** ** Conservation of checkers *)

(** C6. When [_make_move] succeeds, each side has as many checkers on the
    board and in jail together as before.  If the opposing side owned the
    destination (a capture), it held exactly one checker there, the
    destination now holds one checker of the moving side, and the opposing
    side has one checker fewer on the board and one more in jail;
    otherwise the opposing side's board and jail counts are unchanged. *)
Theorem make_move_conserves_checkers (spots : Spots) (jail : Jail)
    (m : MoveTuple.t) (spots' : Spots) (jail' : Jail) :
  _make_move spots jail m = Ok (spots', jail') ->
  let side := MoveTuple.side m in
  let other := Side.other_side side in
  (forall s, total_count s spots' jail' = total_count s spots jail)
  /\ if is_capture spots m
     then Py.getitem spots (MoveTuple.effective_end m) = Ok (Side.token other)
          /\ Py.getitem spots' (MoveTuple.effective_end m) = Ok (Side.token side)
          /\ board_count other spots' = board_count other spots - 1
          /\ jail_count other jail' = jail_count other jail + 1
     else board_count other spots' = board_count other spots
          /\ jail_count other jail' = jail_count other jail.
Proof.
  intros H. cbv zeta. unfold _make_move in H.
  set (side := MoveTuple.side m) in *.
  set (ee := MoveTuple.effective_end m) in *.
  apply bind_Ok in H as (d & _ & H).
  destruct (negb (d =? Side.direction side)); [discriminate |].
  apply bind_Ok in H as (blocked & _ & H).
  destruct blocked; [discriminate |].
  apply bind_Ok in H as ([spots1 jail1] & H1 & H).
  apply bind_Ok in H as ([spots2 jail2] & H2 & H).
  apply bind_Ok in H as (old & Hget & H).
  apply bind_Ok in H as (new & Hinc & H).
  apply bind_Ok in H as (spots3 & Hset & [= <- <-]).
  apply decrement_start_Ok in H1 as (Hs1 & Ho1 & Hj1 & Hlen1 & Hnd1 & Hsame).
  apply handle_stomping_Ok in H2 as (k & target & Hk & Htarget & H2).
  fold side in Hs1, Ho1, Hj1, Hsame, H2. fold ee in Hk.
  specialize (Hnd1 (dict_NoDup jail)).
  destruct (Hsame k target Htarget) as (v0 & Hv0 & Hown0 & Hkeep).
  assert (Hcap : is_capture spots m = Side.owns_spot (Side.other_side side) target).
  { unfold is_capture. fold ee side.
    replace (Py.getitem spots ee) with (Ok (A := Z) v0); [done |].
    symmetry. apply getitem_Ok. exists k. by rewrite <- Hlen1. }
  rewrite Hcap.
  apply getitem_Ok in Hget as (k2 & Hk2 & Hold).
  apply setitem_Ok in Hset as (k3 & Hk3 & ->).
  assert (k3 = k2) as -> by congruence.
  apply increment_Ok in Hinc as (Hfree & ->).
  destruct (checkers_of_increment side old Hfree) as (Hi & Hio1 & Hio2).
  assert (Hfs : board_count side (<[k2 := old + Side.token side]> spots2)
                = board_count side spots2 + 1).
  { rewrite (board_count_insert _ _ _ old) by done. lia. }
  assert (Hfo : board_count (Side.other_side side)
                  (<[k2 := old + Side.token side]> spots2)
                = board_count (Side.other_side side) spots2).
  { rewrite (board_count_insert _ _ _ old) by done. lia. }
  assert (Hjc : forall s j, NoDup j.*1 -> jail_count s j = entry_count s j).
  { intros s j Hj. unfold jail_count. by rewrite dict_of_dict. }
  assert (Hjs' : forall s, jail_count s jail = entry_count s (Py.dict jail)) by done.
  unfold total_count.
  destruct (Side.owns_spot (Side.other_side side) target) eqn:Hown.
  - destruct H2 as (Hs2 & Hbo & Hbs & Hjo & Hjs & Hnd2).
    rewrite Hs2, length_insert in Hk2.
    assert (k2 = k) as -> by congruence.
    rewrite Hs2, list_lookup_insert_eq in Hold by (by eapply lookup_lt_Some).
    injection Hold as <-.
    assert (Hone : target = Side.token (Side.other_side side)).
    { clear -Hown Hfree. side_cases side; owns_to_Z; lia. }
    pose proof (Hkeep ltac:(congruence)) as <-.
    split; [| split; [| split; [| split]]].
    + intros s. rewrite (Hjc s jail2) by auto. rewrite Hjs'.
      destruct (two_sides side s) as [-> | ->]; lia.
    + apply getitem_Ok. exists k. rewrite <- Hlen1. split; [done | congruence].
    + apply getitem_Ok. exists k. rewrite length_insert. split.
      * by rewrite Hs2, length_insert.
      * rewrite list_lookup_insert_eq
          by (rewrite Hs2, length_insert; by eapply lookup_lt_Some).
        f_equal. lia.
    + lia.
    + rewrite (Hjc _ jail2) by auto. rewrite Hjs'. lia.
  - destruct H2 as (-> & ->).
    split; [| split].
    + intros s. rewrite (Hjc s jail1) by auto. rewrite Hjs'.
      destruct (two_sides side s) as [-> | ->]; lia.
    + lia.
    + rewrite (Hjc _ jail1) by auto. rewrite Hjs'. lia.
Qed.

Lemma make_move_conserves_checkers_witness :
  (forall s, total_count s (place 3 1 empty_board) [(Side.BLACK, -1)]
             = total_count s capture_spots [])
  /\ board_count Side.BLACK (place 3 1 empty_board)
     = board_count Side.BLACK capture_spots - 1
  /\ jail_count Side.BLACK [(Side.BLACK, -1)] = jail_count Side.BLACK [] + 1.
Proof.
  pose proof (make_move_conserves_checkers capture_spots []
                (MoveTuple.Make Side.WHITE 1 2)
                (place 3 1 empty_board) [(Side.BLACK, -1)] eq_refl) as H.
  cbv zeta in H.
  change (is_capture capture_spots (MoveTuple.Make Side.WHITE 1 2)) with true in H.
  cbv iota in H. destruct H as (Ht & _ & _ & Hb & Hj).
  split; [exact Ht | split; [exact Hb | exact Hj]].
Defined.

(** ** What _make_move needs to succeed *)

Lemma make_move_Ok (spots : Spots) (jail : Jail) (m : MoveTuple.t)
    (st : Spots * Jail) :
  _make_move spots jail m = Ok st ->
  MoveTuple.direction m = Ok (Side.direction (MoveTuple.side m))
  /\ if MoveTuple.starts_in_jail m
     then Side.owns_spot (MoveTuple.side m)
            (Py.dict_get (Py.dict jail) (MoveTuple.side m) 0) = true
     else exists old,
            Py.getitem spots (MoveTuple.effective_start m) = Ok old
            /\ Side.owns_spot (MoveTuple.side m) old = true.
Proof.
  unfold _make_move. intros H.
  apply bind_Ok in H as (d & Hd & H).
  destruct (Z.eqb_spec d (Side.direction (MoveTuple.side m))) as [-> | _];
    simpl in H; [| discriminate].
  split; [done |].
  apply bind_Ok in H as (blocked & _ & H).
  destruct blocked; [discriminate |].
  apply bind_Ok in H as ([spots1 jail1] & H1 & _).
  unfold decrement_start in H1.
  destruct (MoveTuple.starts_in_jail m); simpl in H1.
  - apply bind_Ok in H1 as (new & Hdec & _).
    by apply decrement_Ok in Hdec as (Hown & _).
  - apply bind_Ok in H1 as (old & Hget & H1).
    apply bind_Ok in H1 as (new & Hdec & _).
    apply decrement_Ok in Hdec as (Hown & _). eauto.
Qed.

Lemma index_0 (len : nat) (i : Z) :
  Py.index len i = Ok 0%nat -> i = 0 \/ i = - Z.of_nat len.
Proof.
  unfold Py.index.
  destruct ((0 <=? i) && (i <? Z.of_nat len)) eqn:E1.
  - intros [= H]. lia.
  - destruct ((- Z.of_nat len <=? i) && (i <? 0)) eqn:E2; [| discriminate].
    intros [= H]. lia.
Qed.

(** ** The enumerator when nothing can move *)

Lemma black_home_no_move (start die : Z) (st : Spots * Jail) :
  die ∈ [1; 2] ->
  _make_move black_home_spots [] (MoveTuple.Make Side.BLACK start die) <> Ok st.
Proof.
  intros Hdie Hok.
  apply make_move_Ok in Hok as (Hdir & Hfrom).
  destruct (MoveTuple.starts_in_jail _) eqn:Hj; [discriminate |].
  destruct Hfrom as (old & Hget & Hown).
  unfold MoveTuple.effective_start in Hget. rewrite Hj in Hget. simpl in Hget.
  apply getitem_Ok in Hget as (k & Hk & Hold).
  change black_home_spots with (-1 :: replicate 25 0) in Hk, Hold.
  destruct k as [| k].
  - apply index_0 in Hk.
    rewrite !elem_of_cons, elem_of_nil in Hdie.
    destruct Hk as [-> | ->]; destruct Hdie as [-> | [-> | []]]; discriminate.
  - change (replicate 25 0 !! k = Some old) in Hold.
    apply lookup_replicate in Hold as [-> _]. discriminate.
Qed.

Lemma move_from_home_degenerate (side : Side.t) (die : Z) :
  0 < die ->
  MoveTuple.effective_end (MoveTuple.Make side (Side.home side) die)
  = MoveTuple.effective_start (MoveTuple.Make side (Side.home side) die).
Proof.
  intros Hdie. destruct side; cbv [MoveTuple.effective_end
    MoveTuple.effective_start MoveTuple.starts_in_jail MoveTuple.signed_roll
    MoveTuple.side MoveTuple.start MoveTuple.die_roll Side.cap_to_home Side.cap
    Side.home Side.direction Side.token Side.jail_start START_FROM_JAIL_FLAG];
    simpl Z.eqb; cbv iota; lia.
Qed.

(** What the enumerator returns on dice whose first value is positive: the
    empty sequence alone unless the side owns [spots[0]], and then the
    ZeroDivisionError of the move from the home spot. *)
Lemma get_all_move_sets_first_spot (spots : Spots) (jail : Jail) (side : Side.t)
    (die : Z) (dice : list Z) :
  0 < die ->
  _get_all_move_sets spots jail side (die :: dice)
  = match spots with
    | [] => Ok [[]]
    | spot :: _ =>
        if Side.owns_spot side spot then Raise ZeroDivisionError else Ok [[]]
    end.
Proof.
  intros Hdie. unfold _get_all_move_sets.
  change (get_all_move_sets_fuel (length (die :: dice)) spots jail side (die :: dice))
    with (match start_spots_of side spots with
          | [] => Ok [NO_MOVE_EMPTY_SET]
          | _ :: _ =>
              for_loop (fun all_move_sets start_spot =>
                for_loop (fun all_move_sets '(d, other_dice) =>
                  let move := MoveTuple.Make side start_spot d in
                  match _make_move spots jail move with
                  | Raise IllegalMoveException => Ok all_move_sets
                  | Raise e => Raise e
                  | Ok (next_spots, next_jail) =>
                      rest ← get_all_move_sets_fuel (length dice) next_spots
                               next_jail side other_dice;
                      Ok (all_move_sets ++ List.map (cons move) rest)
                  end)
                  (_get_die_and_other_dice (die :: dice)) all_move_sets)
                (start_spots_of side spots) []
          end).
  rewrite start_spots_of_first_spot.
  destruct spots as [| spot spots]; [reflexivity |].
  destruct (Side.owns_spot side spot); [| reflexivity].
  pose proof (make_move_degenerate (spot :: spots) jail
                (MoveTuple.Make side (Side.home side) die)
                (move_from_home_degenerate side die Hdie)) as Hmove.
  cbn [for_loop _get_die_and_other_dice imap]. rewrite Hmove. reflexivity.
Qed.

(** C7. BLACK's only checker is on its home spot 0 and the dice are 1 and
    2: whatever the start, [_make_move] accepts no move of BLACK with
    either die, and yet the enumerator does not return the empty sequence;
    it takes spot 0 as a starting spot, tries the move of length 0 from it
    and is left by the ZeroDivisionError of that move. *)
Theorem enumerate_black_home :
  (forall start die st,
      die ∈ [1; 2] ->
      _make_move black_home_spots [] (MoveTuple.Make Side.BLACK start die) <> Ok st)
  /\ start_spots_of Side.BLACK black_home_spots = [0]
  /\ _make_move black_home_spots [] (MoveTuple.Make Side.BLACK 0 1)
     = Raise ZeroDivisionError
  /\ _get_all_move_sets black_home_spots [] Side.BLACK [1; 2]
     = Raise ZeroDivisionError.
Proof.
  split; [intros start die st; apply black_home_no_move |]. repeat split.
Qed.

(** ** Bearing off *)

Lemma all_absent_scan (spots : Spots) (side : Side.t) (idxs : list Z) :
  (forall i, i ∈ idxs -> exists v, Py.getitem spots i = Ok v) ->
  all_absent spots side idxs
  = Ok (forallb (fun i => match Py.getitem spots i with
                          | Ok v => negb (Side.owns_spot side v)
                          | Raise _ => true
                          end) idxs).
Proof.
  induction idxs as [| i idxs IH]; intros Hrange; [reflexivity |]. simpl.
  destruct (Hrange i ltac:(left)) as (v & ->). simpl.
  destruct (Side.owns_spot side v) eqn:Hown; simpl.
  - replace (_get_number_present v =? 0) with false; [reflexivity |].
    symmetry. apply Z.eqb_neq. unfold _get_number_present.
    destruct side; owns_to_Z; lia.
  - apply IH. intros j Hj. apply Hrange. by right.
Qed.

Lemma first_three_quarters_in_range (spots : Spots) (side : Side.t) (i : Z) :
  (25 <= length spots)%nat ->
  i ∈ Py.slice_to (Side.progression side) (-7) ->
  exists v, Py.getitem spots i = Ok v.
Proof.
  intros Hlen Hi.
  assert (Hr : 1 <= i <= 24).
  { destruct side.
    - change (i ∈ seqZ 1 18) in Hi. apply elem_of_seqZ in Hi. lia.
    - change (i ∈ reverse (seqZ 7 18)) in Hi.
      apply elem_of_reverse, elem_of_seqZ in Hi. lia. }
  assert (Hlt : (Z.to_nat i < length spots)%nat) by lia.
  apply lookup_lt_is_Some_2 in Hlt as (v & Hv).
  exists v. apply getitem_Ok. exists (Z.to_nat i). split; [| done].
  unfold Py.index.
  replace ((0 <=? i) && (i <? Z.of_nat (length spots))) with true; [reflexivity |].
  symmetry. apply andb_true_intro. split; [apply Z.leb_le | apply Z.ltb_lt]; lia.
Qed.

(** On a board that has the spots 0..24 the scan answers whether no spot of
    the first three quarters of the side's progression is owned by the
    side. *)
Lemma all_in_last_quarter_scan (spots : Spots) (side : Side.t) :
  (25 <= length spots)%nat ->
  _all_in_last_quarter spots side
  = Ok (forallb (fun i => match Py.getitem spots i with
                          | Ok v => negb (Side.owns_spot side v)
                          | Raise _ => true
                          end)
          (Py.slice_to (Side.progression side) (-7))).
Proof.
  intros Hlen. apply all_absent_scan.
  intros i Hi. by apply (first_three_quarters_in_range spots side).
Qed.

(** A move of non-zero length into home is refused with
    IllegalMoveException when the scan of the first three quarters finds a
    checker of the side. *)
Lemma bearing_off_refused (spots : Spots) (jail : Jail) (m : MoveTuple.t) :
  MoveTuple.effective_end m <> MoveTuple.effective_start m ->
  MoveTuple.effective_end m = Side.home (MoveTuple.side m) ->
  _all_in_last_quarter spots (MoveTuple.side m) = Ok false ->
  _make_move spots jail m = Raise IllegalMoveException.
Proof.
  intros Hne Hhome Hscan. unfold _make_move.
  rewrite (direction_defined m Hne). simpl.
  destruct (negb _); [reflexivity |].
  rewrite Hhome, Z.eqb_refl, Hscan. reflexivity.
Qed.

(** X9. The bearing-off rule as the code has it, on a board that has the spots
    0..24: a move of non-zero length into home is refused as soon as some
    spot of the first three quarters of the progression is owned by the
    side. *)
Lemma bearing_off_rule (spots : Spots) (jail : Jail) (m : MoveTuple.t) (i v : Z) :
  (25 <= length spots)%nat ->
  MoveTuple.effective_end m <> MoveTuple.effective_start m ->
  MoveTuple.effective_end m = Side.home (MoveTuple.side m) ->
  i ∈ Py.slice_to (Side.progression (MoveTuple.side m)) (-7) ->
  Py.getitem spots i = Ok v ->
  Side.owns_spot (MoveTuple.side m) v = true ->
  _make_move spots jail m = Raise IllegalMoveException.
Proof.
  intros Hlen Hne Hhome Hi Hget Hown.
  apply bearing_off_refused; [done | done |].
  rewrite all_in_last_quarter_scan by done. f_equal.
  apply not_true_is_false. intros Hall.
  rewrite forallb_forall in Hall.
  specialize (Hall i ltac:(by apply list_elem_of_In)).
  rewrite Hget, Hown in Hall. discriminate.
Qed.

(** C5. WHITE has a checker on spot 1, outside its last quarter, and one on
    its home spot 25.  The move from spot 25 ends on the home spot, the
    scan of the first three quarters finds the checker on spot 1, and
    [_make_move] raises ZeroDivisionError, not IllegalMoveException: the
    direction of the move is computed before the bearing-off test. *)
Theorem bearing_off_from_home :
  MoveTuple.effective_end (MoveTuple.Make Side.WHITE 25 1) = Side.home Side.WHITE
  /\ Py.slice_to (Side.progression Side.WHITE) (-7)
     = [1; 2; 3; 4; 5; 6; 7; 8; 9; 10; 11; 12; 13; 14; 15; 16; 17; 18]
  /\ checkers_of Side.WHITE 1 = 1
  /\ Py.getitem home_and_far_spots 1 = Ok 1
  /\ _all_in_last_quarter home_and_far_spots Side.WHITE = Ok false
  /\ _make_move home_and_far_spots [] (MoveTuple.Make Side.WHITE 25 1)
     = Raise ZeroDivisionError.
Proof. repeat split. Qed.

(** * Further properties of the module *)

(** ** Ownership of a spot *)

(** X1. A spot value is owned by a side exactly when it is not zero and the
    other side does not own it: WHITE owns the positive values, BLACK the
    negative ones, nobody owns 0. *)
Theorem owns_spot_partition (side : Side.t) (v : Z) :
  Side.owns_spot side v
  = negb (v =? 0) && negb (Side.owns_spot (Side.other_side side) v)
  /\ Side.owns_spot Side.WHITE v = (0 <? v)
  /\ Side.owns_spot Side.BLACK v = (v <? 0).
Proof.
  assert (HW : Side.owns_spot Side.WHITE v = (0 <? v)).
  { apply eq_true_iff_eq. rewrite owns_spot_WHITE, Z.ltb_lt. reflexivity. }
  assert (HB : Side.owns_spot Side.BLACK v = (v <? 0)).
  { apply eq_true_iff_eq. rewrite owns_spot_BLACK, Z.ltb_lt. reflexivity. }
  split; [| by split].
  side_cases side; rewrite HW, HB; apply eq_true_iff_eq;
    rewrite !andb_true_iff, !negb_true_iff, Z.eqb_neq, Z.ltb_lt, Z.ltb_ge; lia.
Qed.

(** ** Geometry of a move *)

Ltac move_geometry m :=
  destruct m as [[] start die];
  cbv [MoveTuple.effective_end MoveTuple.effective_start
       MoveTuple.starts_in_jail MoveTuple.signed_roll MoveTuple.side
       MoveTuple.start MoveTuple.die_roll Side.cap_to_home Side.cap Side.home
       Side.direction Side.token Side.jail_start START_FROM_JAIL_FLAG
       MoveTuple.effective_distance MoveTuple.uses_whole_roll] in *;
  destruct (start =? -1) in *.

(** X2. A move uses its whole roll exactly when the roll is not negative and
    the checker does not overshoot home; the one other case is a start
    behind home at the distance of the roll, where capping brings the
    checker back by exactly the roll. *)
Theorem uses_whole_roll_iff (m : MoveTuple.t) :
  MoveTuple.uses_whole_roll m = true <->
  0 <= MoveTuple.die_roll m
  /\ match MoveTuple.side m with
     | Side.WHITE =>
         MoveTuple.effective_start m + MoveTuple.die_roll m <= 25
         \/ MoveTuple.effective_start m = 25 + MoveTuple.die_roll m
     | Side.BLACK =>
         0 <= MoveTuple.effective_start m - MoveTuple.die_roll m
         \/ MoveTuple.effective_start m = - MoveTuple.die_roll m
     end.
Proof. move_geometry m; rewrite Z.eqb_eq; lia. Qed.

(** X3. The direction of a move is the direction of its side exactly when the
    roll is positive and the effective start lies strictly before the
    side's home. *)
Theorem direction_forward_iff (m : MoveTuple.t) :
  MoveTuple.direction m = Ok (Side.direction (MoveTuple.side m)) <->
  0 < MoveTuple.die_roll m
  /\ match MoveTuple.side m with
     | Side.WHITE => MoveTuple.effective_start m < 25
     | Side.BLACK => 0 < MoveTuple.effective_start m
     end.
Proof.
  destruct (Z.eq_dec (MoveTuple.effective_end m) (MoveTuple.effective_start m))
    as [Heq | Hne].
  - rewrite (direction_degenerate m Heq). split; [discriminate |].
    revert Heq. move_geometry m; lia.
  - rewrite (direction_defined m Hne). clear Hne.
    split.
    + intros [= H]. revert H. move_geometry m; lia.
    + intros H. f_equal. revert H. move_geometry m; lia.
Qed.

Lemma direction_forward (m : MoveTuple.t) :
  MoveTuple.direction m = Ok (Side.direction (MoveTuple.side m)) ->
  0 < MoveTuple.die_roll m
  /\ match MoveTuple.side m with
     | Side.WHITE =>
         MoveTuple.effective_start m < MoveTuple.effective_end m <= 25
     | Side.BLACK =>
         0 <= MoveTuple.effective_end m < MoveTuple.effective_start m
     end.
Proof.
  destruct (Z.eq_dec (MoveTuple.effective_end m) (MoveTuple.effective_start m))
    as [Heq | Hne].
  - rewrite (direction_degenerate m Heq). discriminate.
  - rewrite (direction_defined m Hne). clear Hne.
    intros [= H]. revert H. move_geometry m; lia.
Qed.

(** ** What a successful move needed *)

(** X4. [_make_move] only succeeds on a move with a positive roll that goes
    from its effective start towards home without passing it, and whose
    origin (the spot, or the side's jail entry) is owned by the side. *)
Theorem make_move_needs_forward_roll (spots : Spots) (jail : Jail)
    (m : MoveTuple.t) (st : Spots * Jail) :
  _make_move spots jail m = Ok st ->
  0 < MoveTuple.die_roll m
  /\ match MoveTuple.side m with
     | Side.WHITE =>
         MoveTuple.effective_start m < MoveTuple.effective_end m <= 25
     | Side.BLACK =>
         0 <= MoveTuple.effective_end m < MoveTuple.effective_start m
     end
  /\ if MoveTuple.starts_in_jail m
     then Side.owns_spot (MoveTuple.side m)
            (Py.dict_get (Py.dict jail) (MoveTuple.side m) 0) = true
     else exists old,
            Py.getitem spots (MoveTuple.effective_start m) = Ok old
            /\ Side.owns_spot (MoveTuple.side m) old = true.
Proof.
  intros H. apply make_move_Ok in H as (Hdir & Horigin).
  apply direction_forward in Hdir as (Hdie & Hgeo). done.
Qed.

Lemma make_move_needs_forward_roll_witness :
  0 < 5
  /\ 20 < MoveTuple.effective_end (MoveTuple.Make Side.WHITE 20 5) <= 25
  /\ exists old, Py.getitem test_spots 20 = Ok old
                 /\ Side.owns_spot Side.WHITE old = true.
Proof.
  exact (make_move_needs_forward_roll test_spots []
           (MoveTuple.Make Side.WHITE 20 5) (place 25 1 empty_board, []) eq_refl).
Defined.

(** ** Moves that are refused *)

(** X5. A move with a negative roll is refused with IllegalMoveException,
    whatever the board, the jail, the side and the start. *)
Theorem make_move_negative_roll (spots : Spots) (jail : Jail) (m : MoveTuple.t) :
  MoveTuple.die_roll m < 0 ->
  _make_move spots jail m = Raise IllegalMoveException.
Proof.
  intros Hdie. unfold _make_move.
  assert (Hne : MoveTuple.effective_end m <> MoveTuple.effective_start m).
  { revert Hdie. move_geometry m; lia. }
  rewrite (direction_defined m Hne). simpl.
  replace (_ =? _) with false; [reflexivity |].
  symmetry. apply Z.eqb_neq. revert Hdie. clear Hne. move_geometry m; lia.
Qed.

Lemma make_move_negative_roll_witness :
  _make_move test_spots [] (MoveTuple.Make Side.WHITE 20 (-3))
  = Raise IllegalMoveException.
Proof.
  apply (make_move_negative_roll test_spots [] (MoveTuple.Make Side.WHITE 20 (-3))).
  simpl. lia.
Defined.

(** X6. A move that passes the direction test and the bearing-off test, but
    whose origin is not owned by the side (an empty or opposing spot, an
    empty or opposing jail entry), is not refused with
    IllegalMoveException: [_decrement_for_side] raises ValueError. *)
Theorem make_move_unowned_origin (spots : Spots) (jail : Jail) (m : MoveTuple.t) :
  MoveTuple.direction m = Ok (Side.direction (MoveTuple.side m)) ->
  (MoveTuple.effective_end m <> Side.home (MoveTuple.side m)
   \/ _all_in_last_quarter spots (MoveTuple.side m) = Ok true) ->
  (if MoveTuple.starts_in_jail m
   then Side.owns_spot (MoveTuple.side m)
          (Py.dict_get (Py.dict jail) (MoveTuple.side m) 0) = false
   else exists old,
          Py.getitem spots (MoveTuple.effective_start m) = Ok old
          /\ Side.owns_spot (MoveTuple.side m) old = false) ->
  _make_move spots jail m = Raise ValueError.
Proof.
  intros Hdir Hhome Horigin. unfold _make_move.
  rewrite Hdir. simpl. rewrite Z.eqb_refl. simpl.
  assert (Hpass : (if MoveTuple.effective_end m =? Side.home (MoveTuple.side m)
                   then _all_in_last_quarter spots (MoveTuple.side m)
                        ≫= (fun inside => Ok (negb inside))
                   else Ok false) = Ok false).
  { destruct (Z.eqb_spec (MoveTuple.effective_end m)
                (Side.home (MoveTuple.side m))) as [E | E]; [| done].
    destruct Hhome as [Hne | ->]; [done | reflexivity]. }
  rewrite Hpass. simpl. unfold decrement_start.
  destruct (MoveTuple.starts_in_jail m); simpl.
  - unfold _decrement_for_side. rewrite Horigin. reflexivity.
  - destruct Horigin as (old & -> & Hown). simpl.
    unfold _decrement_for_side. rewrite Hown. reflexivity.
Qed.

Lemma make_move_unowned_origin_witness :
  _make_move test_spots [] (MoveTuple.Make Side.WHITE 3 2) = Raise ValueError
  /\ _make_move test_spots [] (MoveTuple.Make Side.WHITE START_FROM_JAIL_FLAG 2)
     = Raise ValueError.
Proof.
  split.
  - apply (make_move_unowned_origin test_spots [] (MoveTuple.Make Side.WHITE 3 2)).
    + reflexivity.
    + left. discriminate.
    + exists 0. split; reflexivity.
  - apply (make_move_unowned_origin test_spots []
             (MoveTuple.Make Side.WHITE START_FROM_JAIL_FLAG 2)).
    + reflexivity.
    + left. discriminate.
    + reflexivity.
Defined.

(** X7. A start outside the board (and not the jail flag) raises IndexError
    once the move has passed the direction test and the bearing-off test. *)
Theorem make_move_start_out_of_range (spots : Spots) (jail : Jail)
    (m : MoveTuple.t) :
  MoveTuple.direction m = Ok (Side.direction (MoveTuple.side m)) ->
  (MoveTuple.effective_end m <> Side.home (MoveTuple.side m)
   \/ _all_in_last_quarter spots (MoveTuple.side m) = Ok true) ->
  MoveTuple.starts_in_jail m = false ->
  (MoveTuple.start m < - Z.of_nat (length spots)
   \/ Z.of_nat (length spots) <= MoveTuple.start m) ->
  _make_move spots jail m = Raise IndexError.
Proof.
  intros Hdir Hhome Hjail Hrange. unfold _make_move.
  rewrite Hdir. simpl. rewrite Z.eqb_refl. simpl.
  assert (Hpass : (if MoveTuple.effective_end m =? Side.home (MoveTuple.side m)
                   then _all_in_last_quarter spots (MoveTuple.side m)
                        ≫= (fun inside => Ok (negb inside))
                   else Ok false) = Ok false).
  { destruct (Z.eqb_spec (MoveTuple.effective_end m)
                (Side.home (MoveTuple.side m))) as [E | E]; [| done].
    destruct Hhome as [Hne | ->]; [done | reflexivity]. }
  rewrite Hpass. simpl. unfold decrement_start, MoveTuple.effective_start.
  rewrite Hjail. simpl. unfold Py.getitem, Py.index.
  replace ((0 <=? MoveTuple.start m) && _) with false
    by (symmetry; apply andb_false_iff; rewrite Z.leb_gt, Z.ltb_ge; lia).
  replace ((- Z.of_nat (length spots) <=? MoveTuple.start m) && _) with false
    by (symmetry; apply andb_false_iff; rewrite Z.leb_gt, Z.ltb_ge; lia).
  reflexivity.
Qed.

Lemma make_move_start_out_of_range_witness :
  _make_move test_spots [] (MoveTuple.Make Side.BLACK 30 2) = Raise IndexError.
Proof.
  apply (make_move_start_out_of_range test_spots [] (MoveTuple.Make Side.BLACK 30 2)).
  - reflexivity.
  - left. discriminate.
  - reflexivity.
  - right. simpl. lia.
Defined.

(** ** The exact effect of a successful move *)

Lemma decrement_start_exact (spots : Spots) (jail : Jail) (m : MoveTuple.t)
    (spots1 : Spots) (jail1 : Jail) :
  decrement_start spots jail m = Ok (spots1, jail1) ->
  let side := MoveTuple.side m in
  if MoveTuple.starts_in_jail m
  then spots1 = spots
       /\ Side.owns_spot side (Py.dict_get jail side 0) = true
       /\ jail1 = Py.dict_set jail side (Py.dict_get jail side 0 - Side.token side)
  else exists ks old,
         Py.index (length spots) (MoveTuple.effective_start m) = Ok ks
         /\ spots !! ks = Some old
         /\ Side.owns_spot side old = true
         /\ spots1 = <[ks := old - Side.token side]> spots
         /\ jail1 = jail.
Proof.
  intros H. cbv zeta. unfold decrement_start in H.
  destruct (MoveTuple.starts_in_jail m); simpl in H.
  - apply bind_Ok in H as (new & Hdec & [= <- <-]).
    by apply decrement_Ok in Hdec as (Hown & ->).
  - apply bind_Ok in H as (old & Hget & H).
    apply bind_Ok in H as (new & Hdec & H).
    apply bind_Ok in H as (spots' & Hset & [= <- <-]).
    apply getitem_Ok in Hget as (ks & Hks & Hold).
    apply setitem_Ok in Hset as (ks' & Hks' & ->).
    assert (ks' = ks) as -> by congruence.
    apply decrement_Ok in Hdec as (Hown & ->).
    exists ks, old. done.
Qed.

Lemma handle_stomping_exact (spots1 : Spots) (jail1 : Jail) (m : MoveTuple.t)
    (spots2 : Spots) (jail2 : Jail) :
  handle_stomping spots1 jail1 m = Ok (spots2, jail2) ->
  let other := Side.other_side (MoveTuple.side m) in
  exists ke target,
    Py.index (length spots1) (MoveTuple.effective_end m) = Ok ke
    /\ spots1 !! ke = Some target
    /\ if Side.owns_spot other target
       then _is_stompable target = true
            /\ spots2 = <[ke := target - Side.token other]> spots1
            /\ Side.owns_spot (MoveTuple.side m) (Py.dict_get jail1 other 0) = false
            /\ jail2 = Py.dict_set jail1 other
                         (Py.dict_get jail1 other 0 + Side.token other)
       else spots2 = spots1 /\ jail2 = jail1.
Proof.
  intros H. cbv zeta. unfold handle_stomping in H.
  destruct (Py.getitem spots1 (MoveTuple.effective_end m)) as [target | e] eqn:Hget;
    simpl in H; [| discriminate].
  apply getitem_Ok in Hget as (ke & Hke & Htarget).
  exists ke, target. split; [done |]. split; [done |].
  destruct (Side.owns_spot _ target) eqn:Hown.
  - destruct (_is_stompable target); simpl in H; [| discriminate].
    apply bind_Ok in H as (new & Hdec & H).
    apply bind_Ok in H as (spots' & Hset & H).
    apply bind_Ok in H as (jailed & Hinc & [= <- <-]).
    apply setitem_Ok in Hset as (ke' & Hke' & ->).
    assert (ke' = ke) as -> by congruence.
    apply decrement_Ok in Hdec as (_ & ->).
    apply increment_Ok in Hinc as (Hjail & ->).
    rewrite other_side_involutive in Hjail. done.
  - by injection H as <- <-.
Qed.

(** The whole of a successful [_make_move]: the origin loses a checker,
    a single opposing checker on the destination goes to jail, and the
    destination gains a checker. *)
Lemma make_move_effect (spots : Spots) (jail : Jail) (m : MoveTuple.t)
    (spots' : Spots) (jail' : Jail) :
  _make_move spots jail m = Ok (spots', jail') ->
  let side := MoveTuple.side m in
  let other := Side.other_side side in
  exists spots1 jail1 ke target,
    decrement_start spots (Py.dict jail) m = Ok (spots1, jail1)
    /\ Py.index (length spots1) (MoveTuple.effective_end m) = Ok ke
    /\ spots1 !! ke = Some target
    /\ if Side.owns_spot other target
       then target = Side.token other
            /\ spots' = <[ke := Side.token side]> spots1
            /\ Side.owns_spot side (Py.dict_get jail1 other 0) = false
            /\ jail' = Py.dict_set jail1 other
                         (Py.dict_get jail1 other 0 + Side.token other)
       else spots' = <[ke := target + Side.token side]> spots1
            /\ jail' = jail1.
Proof.
  intros H. cbv zeta. unfold _make_move in H.
  apply bind_Ok in H as (d & _ & H).
  destruct (negb _); [discriminate |].
  apply bind_Ok in H as (blocked & _ & H).
  destruct blocked; [discriminate |].
  apply bind_Ok in H as ([spots1 jail1] & H1 & H).
  apply bind_Ok in H as ([spots2 jail2] & H2 & H).
  apply bind_Ok in H as (old & Hget & H).
  apply bind_Ok in H as (new & Hinc & H).
  apply bind_Ok in H as (spots3 & Hset & [= <- <-]).
  apply handle_stomping_exact in H2 as (ke & target & Hke & Htarget & H2).
  exists spots1, jail1, ke, target.
  split; [done |]. split; [done |]. split; [done |].
  apply getitem_Ok in Hget as (k2 & Hk2 & Hold).
  apply setitem_Ok in Hset as (k3 & Hk3 & ->).
  assert (k3 = k2) as -> by congruence.
  apply increment_Ok in Hinc as (Hfree & ->).
  destruct (Side.owns_spot _ target) eqn:Hown.
  - destruct H2 as (_ & -> & Hjail & ->).
    rewrite length_insert in Hk2. assert (k2 = ke) as -> by congruence.
    rewrite list_lookup_insert_eq in Hold by (by eapply lookup_lt_Some).
    injection Hold as <-.
    assert (Hone : target = Side.token (Side.other_side (MoveTuple.side m))).
    { revert Hown Hfree. generalize (MoveTuple.side m).
      intros s Hown Hfree. side_cases s; owns_to_Z; lia. }
    split; [done |]. split; [| done].
    rewrite list_insert_insert_eq. f_equal. lia.
  - destruct H2 as (-> & ->).
    assert (k2 = ke) as -> by congruence.
    assert (old = target) as -> by congruence. done.
Qed.

Lemma index_nonneg (len : nat) (i : Z) (k : nat) :
  0 <= i -> Py.index len i = Ok k -> k = Z.to_nat i /\ i < Z.of_nat len.
Proof.
  intros Hi. unfold Py.index.
  destruct ((0 <=? i) && (i <? Z.of_nat len)) eqn:E1.
  - intros [= <-]. lia.
  - destruct ((- Z.of_nat len <=? i) && (i <? 0)) eqn:E2; [| discriminate]. lia.
Qed.

(** X16. A successful move returns a board of the same length and a jail whose
    keys are distinct, so that the returned jail is its own [dict(...)]:
    the result can be handed to [_make_move] again as it is. *)
Theorem make_move_keeps_shape (spots : Spots) (jail : Jail) (m : MoveTuple.t)
    (spots' : Spots) (jail' : Jail) :
  _make_move spots jail m = Ok (spots', jail') ->
  length spots' = length spots /\ NoDup jail'.*1 /\ Py.dict jail' = jail'.
Proof.
  intros H.
  apply make_move_effect in H as (spots1 & jail1 & ke & target & H1 & _ & _ & H2).
  apply decrement_start_Ok in H1 as (_ & _ & _ & Hlen & Hnd & _).
  specialize (Hnd (dict_NoDup jail)).
  assert (Hshape : length spots' = length spots /\ NoDup jail'.*1).
  { destruct (Side.owns_spot _ target).
    - destruct H2 as (_ & -> & _ & ->). rewrite length_insert.
      split; [done | by apply dict_set_NoDup].
    - destruct H2 as (-> & ->). by rewrite length_insert. }
  destruct Hshape as [Hl Hn]. split; [done |]. split; [done |].
  by apply dict_of_dict.
Qed.

Lemma make_move_keeps_shape_witness :
  length (place 3 1 empty_board) = length capture_spots
  /\ NoDup [(Side.BLACK, -1)].*1
  /\ Py.dict [(Side.BLACK, -1)] = [(Side.BLACK, -1)].
Proof.
  exact (make_move_keeps_shape capture_spots [] (MoveTuple.Make Side.WHITE 1 2)
           (place 3 1 empty_board) [(Side.BLACK, -1)] eq_refl).
Defined.

(** X14. A successful move changes no spot other than its origin and its
    destination (and not even the origin when it starts in jail). *)
Theorem make_move_frame (spots : Spots) (jail : Jail) (m : MoveTuple.t)
    (spots' : Spots) (jail' : Jail) (k : nat) :
  _make_move spots jail m = Ok (spots', jail') ->
  (MoveTuple.starts_in_jail m = true
   \/ Py.index (length spots) (MoveTuple.effective_start m) <> Ok k) ->
  Py.index (length spots) (MoveTuple.effective_end m) <> Ok k ->
  spots' !! k = spots !! k.
Proof.
  intros H Hstart Hend.
  apply make_move_effect in H as (spots1 & jail1 & ke & target & H1 & Hke & _ & H2).
  pose proof (decrement_start_Ok _ _ _ _ _ H1) as (_ & _ & _ & Hlen & _).
  rewrite Hlen in Hke.
  assert (Hk : ke <> k) by congruence.
  assert (H1k : spots1 !! k = spots !! k).
  { apply decrement_start_exact in H1. cbv zeta in H1.
    destruct (MoveTuple.starts_in_jail m).
    - by destruct H1 as (-> & _).
    - destruct H1 as (ks & old & Hks & _ & _ & -> & _).
      destruct Hstart as [? | Hstart]; [done |].
      apply list_lookup_insert_ne. congruence. }
  destruct (Side.owns_spot _ target).
  - destruct H2 as (_ & -> & _). by rewrite list_lookup_insert_ne.
  - destruct H2 as (-> & _). by rewrite list_lookup_insert_ne.
Qed.

Lemma make_move_frame_witness :
  place 3 1 empty_board !! 20%nat = capture_spots !! 20%nat.
Proof.
  apply (make_move_frame capture_spots [] (MoveTuple.Make Side.WHITE 1 2)
           (place 3 1 empty_board) [(Side.BLACK, -1)] 20 eq_refl).
  - right. discriminate.
  - discriminate.
Defined.

(** X15. After a successful move the destination is owned by the moving side. *)
Theorem make_move_destination_owned (spots : Spots) (jail : Jail)
    (m : MoveTuple.t) (spots' : Spots) (jail' : Jail) :
  _make_move spots jail m = Ok (spots', jail') ->
  exists v,
    Py.getitem spots' (MoveTuple.effective_end m) = Ok v
    /\ Side.owns_spot (MoveTuple.side m) v = true
    /\ Side.owns_spot (Side.other_side (MoveTuple.side m)) v = false.
Proof.
  intros H.
  apply make_move_effect in H as (spots1 & jail1 & ke & target & _ & Hke & Ht & H2).
  pose proof (lookup_lt_Some _ _ _ Ht) as Hlt.
  assert (Hv : exists v, spots' = <[ke := v]> spots1
                         /\ Side.owns_spot (MoveTuple.side m) v = true).
  { revert H2. generalize (MoveTuple.side m). intros s H2.
    destruct (Side.owns_spot (Side.other_side s) target) eqn:Hown.
    - destruct H2 as (_ & -> & _). eexists. split; [done |].
      destruct s; reflexivity.
    - destruct H2 as (-> & _). eexists. split; [done |].
      side_cases s; owns_to_Z;
        first [apply owns_spot_WHITE | apply owns_spot_BLACK]; lia. }
  destruct Hv as (v & -> & Hown). exists v. split; [| split].
  - apply getitem_Ok. exists ke. rewrite length_insert. split; [done |].
    by apply list_lookup_insert_eq.
  - done.
  - by apply owns_spot_exclusive.
Qed.

Lemma make_move_destination_owned_witness :
  exists v,
    Py.getitem (place 3 1 empty_board) 3 = Ok v
    /\ Side.owns_spot Side.WHITE v = true
    /\ Side.owns_spot Side.BLACK v = false.
Proof.
  exact (make_move_destination_owned capture_spots []
           (MoveTuple.Make Side.WHITE 1 2)
           (place 3 1 empty_board) [(Side.BLACK, -1)] eq_refl).
Defined.

(** X12. A successful move from a spot (given by a non-negative index): the
    origin loses one checker of the side; a destination owned by the other
    side held exactly one checker, which is replaced by one of the moving
    side and added to the other side's jail entry; any other destination
    gains one checker and the jail is the dict of the given jail. *)
Theorem make_move_from_spot (spots : Spots) (jail : Jail) (m : MoveTuple.t)
    (spots' : Spots) (jail' : Jail) :
  _make_move spots jail m = Ok (spots', jail') ->
  MoveTuple.starts_in_jail m = false ->
  0 <= MoveTuple.start m ->
  let side := MoveTuple.side m in
  let other := Side.other_side side in
  let origin := Z.to_nat (MoveTuple.start m) in
  let destination := Z.to_nat (MoveTuple.effective_end m) in
  exists old target,
    spots !! origin = Some old
    /\ spots !! destination = Some target
    /\ Side.owns_spot side old = true
    /\ if Side.owns_spot other target
       then target = Side.token other
            /\ spots' = <[destination := Side.token side]>
                          (<[origin := old - Side.token side]> spots)
            /\ jail' = Py.dict_set (Py.dict jail) other
                         (Py.dict_get (Py.dict jail) other 0 + Side.token other)
       else spots' = <[destination := target + Side.token side]>
                       (<[origin := old - Side.token side]> spots)
            /\ jail' = Py.dict jail.
Proof.
  intros H Hjail Hstart. cbv zeta.
  pose proof (make_move_Ok _ _ _ _ H) as (Hdir & _).
  apply direction_forward in Hdir as (_ & Hgeo).
  apply make_move_effect in H as (spots1 & jail1 & ke & target & H1 & Hke & Ht & H2).
  apply decrement_start_exact in H1. cbv zeta in H1. rewrite Hjail in H1.
  destruct H1 as (ks & old & Hks & Hold & Hown & -> & ->).
  assert (Hes : MoveTuple.effective_start m = MoveTuple.start m).
  { unfold MoveTuple.effective_start. by rewrite Hjail. }
  rewrite Hes in Hks, Hgeo.
  apply index_nonneg in Hks as (-> & _); [| done].
  rewrite length_insert in Hke.
  apply index_nonneg in Hke as (-> & _);
    [| destruct (MoveTuple.side m); lia].
  assert (Hne : Z.to_nat (MoveTuple.start m)
                <> Z.to_nat (MoveTuple.effective_end m))
    by (destruct (MoveTuple.side m); lia).
  rewrite list_lookup_insert_ne in Ht by done.
  exists old, target. split; [done |]. split; [done |]. split; [done |].
  destruct (Side.owns_spot _ target); [| done].
  by destruct H2 as (? & ? & _ & ?).
Qed.

Lemma make_move_from_spot_witness :
  exists old target,
    capture_spots !! 1%nat = Some old
    /\ capture_spots !! 3%nat = Some target
    /\ Side.owns_spot Side.WHITE old = true
    /\ if Side.owns_spot Side.BLACK target
       then target = -1
            /\ place 3 1 empty_board
               = <[3%nat := 1]> (<[1%nat := old - 1]> capture_spots)
            /\ [(Side.BLACK, -1)]
               = Py.dict_set (Py.dict []) Side.BLACK
                   (Py.dict_get (Py.dict []) Side.BLACK 0 + -1)
       else place 3 1 empty_board
            = <[3%nat := target + 1]> (<[1%nat := old - 1]> capture_spots)
            /\ [(Side.BLACK, -1)] = Py.dict [].
Proof.
  apply (make_move_from_spot capture_spots [] (MoveTuple.Make Side.WHITE 1 2)
           (place 3 1 empty_board) [(Side.BLACK, -1)]).
  - reflexivity.
  - reflexivity.
  - simpl. lia.
Defined.

(** X13. A successful move from jail: the side's jail entry was owned by the
    side and loses one checker, no spot but the destination changes, and
    the destination is treated as for a move from a spot. *)
Theorem make_move_from_jail (spots : Spots) (jail : Jail) (m : MoveTuple.t)
    (spots' : Spots) (jail' : Jail) :
  _make_move spots jail m = Ok (spots', jail') ->
  MoveTuple.starts_in_jail m = true ->
  let side := MoveTuple.side m in
  let other := Side.other_side side in
  let destination := Z.to_nat (MoveTuple.effective_end m) in
  let entry := Py.dict_get (Py.dict jail) side 0 in
  let jail1 := Py.dict_set (Py.dict jail) side (entry - Side.token side) in
  Side.owns_spot side entry = true
  /\ exists target,
      spots !! destination = Some target
      /\ if Side.owns_spot other target
         then target = Side.token other
              /\ spots' = <[destination := Side.token side]> spots
              /\ jail' = Py.dict_set jail1 other
                           (Py.dict_get (Py.dict jail) other 0 + Side.token other)
         else spots' = <[destination := target + Side.token side]> spots
              /\ jail' = jail1.
Proof.
  intros H Hjail. cbv zeta.
  pose proof (make_move_Ok _ _ _ _ H) as (Hdir & _).
  apply direction_forward in Hdir as (_ & Hgeo).
  apply make_move_effect in H as (spots1 & jail1 & ke & target & H1 & Hke & Ht & H2).
  apply decrement_start_exact in H1. cbv zeta in H1. rewrite Hjail in H1.
  destruct H1 as (-> & Hown & ->).
  assert (Hes : MoveTuple.effective_start m
                = Side.jail_start (MoveTuple.side m)).
  { unfold MoveTuple.effective_start. by rewrite Hjail. }
  rewrite Hes in Hgeo.
  apply index_nonneg in Hke as (-> & _);
    [| destruct (MoveTuple.side m); simpl in Hgeo; lia].
  split; [done |]. exists target. split; [done |].
  rewrite dict_get_set in H2.
  rewrite decide_False in H2 by (symmetry; apply other_side_differs).
  destruct (Side.owns_spot _ target); [| done].
  by destruct H2 as (? & ? & _ & ?).
Qed.

Lemma make_move_from_jail_witness :
  Side.owns_spot Side.WHITE (Py.dict_get (Py.dict [(Side.WHITE, 1)]) Side.WHITE 0)
  = true
  /\ exists target,
      empty_board !! 5%nat = Some target
      /\ if Side.owns_spot Side.BLACK target
         then target = -1
              /\ place 5 1 empty_board = <[5%nat := 1]> empty_board
              /\ [(Side.WHITE, 0)]
                 = Py.dict_set
                     (Py.dict_set (Py.dict [(Side.WHITE, 1)]) Side.WHITE
                        (Py.dict_get (Py.dict [(Side.WHITE, 1)]) Side.WHITE 0 - 1))
                     Side.BLACK
                     (Py.dict_get (Py.dict [(Side.WHITE, 1)]) Side.BLACK 0 + -1)
         else place 5 1 empty_board = <[5%nat := target + 1]> empty_board
              /\ [(Side.WHITE, 0)]
                 = Py.dict_set (Py.dict [(Side.WHITE, 1)]) Side.WHITE
                     (Py.dict_get (Py.dict [(Side.WHITE, 1)]) Side.WHITE 0 - 1).
Proof.
  apply (make_move_from_jail empty_board [(Side.WHITE, 1)]
           (MoveTuple.Make Side.WHITE START_FROM_JAIL_FLAG 5)
           (place 5 1 empty_board) [(Side.WHITE, 0)]).
  - reflexivity.
  - reflexivity.
Defined.

(** ** Incrementing and decrementing a spot *)

(** X17. A decrement that succeeds is undone by an increment for the same
    side, and an increment that succeeds is undone by a decrement. *)
Theorem increment_decrement_round_trip (side : Side.t) (v v' : Z) :
  (_decrement_for_side v side = Ok v' -> _increment_for_side v' side = Ok v)
  /\ (_increment_for_side v side = Ok v' -> _decrement_for_side v' side = Ok v).
Proof.
  split; intros H.
  - apply decrement_Ok in H as (Hown & ->).
    destruct (checkers_of_decrement side v Hown) as (_ & _ & _ & Hno).
    unfold _increment_for_side. rewrite Hno. f_equal. lia.
  - apply increment_Ok in H as (Hfree & ->).
    unfold _decrement_for_side.
    replace (Side.owns_spot side (v + Side.token side)) with true.
    + simpl. f_equal. lia.
    + symmetry. revert Hfree. side_cases side; intros Hfree; owns_to_Z;
        first [apply owns_spot_WHITE | apply owns_spot_BLACK]; lia.
Qed.

Lemma increment_decrement_round_trip_witness :
  _increment_for_side (-2) Side.BLACK = Ok (-3)
  /\ _decrement_for_side 1 Side.WHITE = Ok 0.
Proof.
  split.
  - apply (increment_decrement_round_trip Side.BLACK (-3) (-2)). reflexivity.
  - apply (increment_decrement_round_trip Side.WHITE 0 1). reflexivity.
Defined.

(** X18. A decrement succeeds exactly on a value the side owns and an increment
    exactly on a value the other side does not own; the number of checkers
    present goes down, respectively up, by one, and the result is never
    owned by the other side. *)
Theorem increment_decrement_counts (side : Side.t) (v : Z) :
  (Side.owns_spot side v = false ->
   _decrement_for_side v side = Raise ValueError)
  /\ (Side.owns_spot side v = true ->
      exists v', _decrement_for_side v side = Ok v'
                 /\ _get_number_present v' = _get_number_present v - 1
                 /\ Side.owns_spot (Side.other_side side) v' = false)
  /\ (Side.owns_spot (Side.other_side side) v = true ->
      _increment_for_side v side = Raise ValueError)
  /\ (Side.owns_spot (Side.other_side side) v = false ->
      exists v', _increment_for_side v side = Ok v'
                 /\ _get_number_present v' = _get_number_present v + 1
                 /\ Side.owns_spot side v' = true).
Proof.
  unfold _decrement_for_side, _increment_for_side, _get_number_present.
  split; [by intros -> |]. split; [| split; [by intros -> |]].
  - intros Hown. rewrite Hown. simpl. eexists. split; [reflexivity |].
    revert Hown. side_cases side; intros Hown; owns_to_Z;
      (split; [lia | owns_false]).
  - intros Hfree. rewrite Hfree. eexists. split; [reflexivity |].
    revert Hfree. side_cases side; intros Hfree; owns_to_Z;
      (split; [lia | first [apply owns_spot_WHITE | apply owns_spot_BLACK]; lia]).
Qed.

Lemma increment_decrement_counts_witness :
  _decrement_for_side 0 Side.WHITE = Raise ValueError
  /\ _increment_for_side 2 Side.BLACK = Raise ValueError.
Proof.
  split.
  - apply (increment_decrement_counts Side.WHITE 0). reflexivity.
  - apply (increment_decrement_counts Side.BLACK 2). reflexivity.
Defined.

(** ** Choosing a die *)

Lemma get_die_and_other_dice_fst (dice : list Z) :
  (_get_die_and_other_dice dice).*1 = dice.
Proof.
  unfold _get_die_and_other_dice. rewrite fmap_imap.
  rewrite (imap_ext _ (const id)) by done.
  rewrite imap_const. apply list_fmap_id.
Qed.

(** X19. [_get_die_and_other_dice] yields the dice in order, one pair per die;
    in each pair the other dice are the dice without that one die: the die
    put in front of them is a permutation of all the dice. *)
Theorem get_die_and_other_dice_spec (dice : list Z) :
  (_get_die_and_other_dice dice).*1 = dice
  /\ forall (i : nat) (die : Z) (other_dice : list Z),
      _get_die_and_other_dice dice !! i = Some (die, other_dice) ->
      dice !! i = Some die
      /\ die :: other_dice ≡ₚ dice
      /\ S (length other_dice) = length dice.
Proof.
  split; [apply get_die_and_other_dice_fst |].
  unfold _get_die_and_other_dice.
  - intros i die other_dice H.
    apply list_lookup_imap_Some in H as (y & Hy & [= <- ->]).
    split; [done |]. split.
    + rewrite Permutation_middle. by rewrite take_drop_middle.
    + apply lookup_lt_Some in Hy.
      rewrite length_app, length_take, length_drop. lia.
Qed.

Lemma get_die_and_other_dice_spec_witness :
  [3; 3; 3; 3] !! 2%nat = Some 3
  /\ 3 :: [3; 3; 3] ≡ₚ [3; 3; 3; 3]
  /\ S (length [3; 3; 3]) = length [3; 3; 3; 3].
Proof.
  apply (proj2 (get_die_and_other_dice_spec [3; 3; 3; 3]) 2%nat 3 [3; 3; 3]).
  reflexivity.
Defined.

(** ** The scan of the first three quarters *)

Lemma first_three_quarters_range (side : Side.t) (i : Z) :
  i ∈ Py.slice_to (Side.progression side) (-7) <->
  match side with
  | Side.WHITE => 1 <= i <= 18
  | Side.BLACK => 7 <= i <= 24
  end.
Proof.
  destruct side.
  - change (i ∈ seqZ 1 18 <-> 1 <= i <= 18). rewrite elem_of_seqZ. lia.
  - change (i ∈ reverse (seqZ 7 18) <-> 7 <= i <= 24).
    rewrite elem_of_reverse, elem_of_seqZ. lia.
Qed.

Lemma getitem_in_range (spots : Spots) (i : Z) :
  0 <= i < Z.of_nat (length spots) ->
  Py.getitem spots i
  = match spots !! Z.to_nat i with Some v => Ok v | None => Raise IndexError end.
Proof.
  intros Hi. unfold Py.getitem, Py.index.
  replace ((0 <=? i) && (i <? Z.of_nat (length spots))) with true; [done |].
  symmetry. apply andb_true_intro. split; [apply Z.leb_le | apply Z.ltb_lt]; lia.
Qed.

(** X20. On a board that has the spots 0..24, [_all_in_last_quarter] returns,
    and returns True exactly when the side owns none of the spots 1..18
    (WHITE) or 7..24 (BLACK): the home spot, the six spots before it and
    the jail play no part. *)
Theorem all_in_last_quarter_iff (spots : Spots) (side : Side.t) :
  (25 <= length spots)%nat ->
  exists inside,
    _all_in_last_quarter spots side = Ok inside
    /\ (inside = true <->
        forall i v,
          match side with
          | Side.WHITE => 1 <= i <= 18
          | Side.BLACK => 7 <= i <= 24
          end ->
          spots !! Z.to_nat i = Some v ->
          Side.owns_spot side v = false).
Proof.
  intros Hlen. rewrite all_in_last_quarter_scan by done.
  eexists. split; [reflexivity |].
  rewrite forallb_forall. split.
  - intros H i v Hi Hv.
    specialize (H i). rewrite <- list_elem_of_In, first_three_quarters_range in H.
    specialize (H Hi).
    rewrite getitem_in_range, Hv in H by (destruct side; lia).
    by apply negb_true_iff in H.
  - intros H i Hi.
    rewrite <- list_elem_of_In, first_three_quarters_range in Hi.
    rewrite getitem_in_range by (destruct side; lia).
    destruct (spots !! Z.to_nat i) as [v |] eqn:Hv; [| done].
    apply negb_true_iff. by apply (H i v).
Qed.

Lemma all_in_last_quarter_iff_witness :
  exists inside,
    _all_in_last_quarter home_and_far_spots Side.WHITE = Ok inside
    /\ (inside = true <->
        forall i v,
          1 <= i <= 18 ->
          home_and_far_spots !! Z.to_nat i = Some v ->
          Side.owns_spot Side.WHITE v = false).
Proof.
  apply (all_in_last_quarter_iff home_and_far_spots Side.WHITE).
  simpl. lia.
Defined.

(** X21. The scan reads the board without a bound check of its own: it starts
    at spot 24 for BLACK and at spot 1 for WHITE, and a board that lacks
    that spot makes it raise IndexError. *)
Theorem all_in_last_quarter_short_board (spots : Spots) (side : Side.t) :
  (length spots <= match side with Side.WHITE => 1 | Side.BLACK => 24 end)%nat ->
  _all_in_last_quarter spots side = Raise IndexError.
Proof.
  intros Hlen.
  assert (Hfirst : forall i rest,
             Z.of_nat (length spots) <= i ->
             all_absent spots side (i :: rest) = Raise IndexError).
  { intros i rest Hi. simpl. unfold Py.getitem, Py.index.
    replace ((0 <=? i) && _) with false
      by (symmetry; apply andb_false_iff; rewrite Z.leb_gt, Z.ltb_ge; lia).
    replace ((- Z.of_nat (length spots) <=? i) && _) with false
      by (symmetry; apply andb_false_iff; rewrite Z.leb_gt, Z.ltb_ge; lia).
    reflexivity. }
  destruct side.
  - change (all_absent spots Side.WHITE (1 :: seqZ 2 17) = Raise IndexError).
    apply Hfirst. lia.
  - change (all_absent spots Side.BLACK (24 :: reverse (seqZ 7 17))
            = Raise IndexError).
    apply Hfirst. lia.
Qed.

Lemma all_in_last_quarter_short_board_witness :
  _all_in_last_quarter [] Side.WHITE = Raise IndexError
  /\ _all_in_last_quarter (replicate 24 0) Side.BLACK = Raise IndexError.
Proof.
  split.
  - apply (all_in_last_quarter_short_board [] Side.WHITE). simpl. lia.
  - apply (all_in_last_quarter_short_board (replicate 24 0) Side.BLACK).
    simpl. lia.
Defined.

(** ** Landing on a point of the other side *)

Lemma getitem_insert_ne (l : Spots) (i : Z) (k k' : nat) (v : Z) :
  Py.index (length l) i = Ok k -> k <> k' ->
  Py.getitem (<[k' := v]> l) i = Py.getitem l i.
Proof.
  intros Hk Hne. unfold Py.getitem. rewrite length_insert, Hk. simpl.
  by rewrite list_lookup_insert_ne.
Qed.

Lemma getitem_insert_eq (l : Spots) (i : Z) (k : nat) (v : Z) :
  Py.index (length l) i = Ok k ->
  Py.getitem (<[k := v]> l) i = Ok v /\ Py.setitem l i v = Ok (<[k := v]> l).
Proof.
  intros Hk. unfold Py.getitem, Py.setitem. rewrite length_insert, Hk. simpl.
  by rewrite list_lookup_insert_eq by (by eapply index_lt).
Qed.

(** A move that passes the two tests and has an owned origin reaches the
    stomping step with its destination as it was, when the side does not
    own the destination. *)
Lemma make_move_reaches_stomping (spots : Spots) (jail : Jail) (m : MoveTuple.t)
    (target : Z) :
  MoveTuple.direction m = Ok (Side.direction (MoveTuple.side m)) ->
  (MoveTuple.effective_end m <> Side.home (MoveTuple.side m)
   \/ _all_in_last_quarter spots (MoveTuple.side m) = Ok true) ->
  (if MoveTuple.starts_in_jail m
   then Side.owns_spot (MoveTuple.side m)
          (Py.dict_get (Py.dict jail) (MoveTuple.side m) 0) = true
   else exists old,
          Py.getitem spots (MoveTuple.effective_start m) = Ok old
          /\ Side.owns_spot (MoveTuple.side m) old = true) ->
  Py.getitem spots (MoveTuple.effective_end m) = Ok target ->
  Side.owns_spot (MoveTuple.side m) target = false ->
  exists spots1 jail1,
    Py.getitem spots1 (MoveTuple.effective_end m) = Ok target
    /\ length spots1 = length spots
    /\ _make_move spots jail m
       = '(spots2, jail2) ← handle_stomping spots1 jail1 m;
         old ← Py.getitem spots2 (MoveTuple.effective_end m);
         new ← _increment_for_side old (MoveTuple.side m);
         spots3 ← Py.setitem spots2 (MoveTuple.effective_end m) new;
         Ok (spots3, jail2).
Proof.
  intros Hdir Hhome Horigin Hget Hfree. unfold _make_move.
  rewrite Hdir. simpl. rewrite Z.eqb_refl. simpl.
  assert (Hpass : (if MoveTuple.effective_end m =? Side.home (MoveTuple.side m)
                   then _all_in_last_quarter spots (MoveTuple.side m)
                        ≫= (fun inside => Ok (negb inside))
                   else Ok false) = Ok false).
  { destruct (Z.eqb_spec (MoveTuple.effective_end m)
                (Side.home (MoveTuple.side m))) as [E | E]; [| done].
    destruct Hhome as [Hne | ->]; [done | reflexivity]. }
  rewrite Hpass. simpl. unfold decrement_start.
  destruct (MoveTuple.starts_in_jail m); simpl.
  - unfold _decrement_for_side. rewrite Horigin. simpl.
    eexists _, _. split; [exact Hget |]. split; reflexivity.
  - destruct Horigin as (old & Hold & Hown). rewrite Hold. simpl.
    unfold _decrement_for_side. rewrite Hown. simpl.
    apply getitem_Ok in Hold as (ks & Hks & Hlook).
    destruct (getitem_insert_eq spots (MoveTuple.effective_start m) ks
                (old - 1 * Side.token (MoveTuple.side m)) Hks) as [_ ->].
    simpl. eexists _, _. split; [| split; [apply length_insert | reflexivity]].
    pose proof Hget as Hget'.
    apply getitem_Ok in Hget' as (ke & Hke & Hlook').
    rewrite (getitem_insert_ne _ _ ke) by (done || congruence). done.
Qed.

(** X10. BLACK is blocked by a WHITE point: a BLACK move that passes the
    direction and bearing-off tests, with an owned origin, onto a spot
    holding two or more WHITE checkers is refused with
    IllegalMoveException. *)
Theorem black_blocked_by_white_point (spots : Spots) (jail : Jail)
    (m : MoveTuple.t) (target : Z) :
  MoveTuple.side m = Side.BLACK ->
  MoveTuple.direction m = Ok (Side.direction (MoveTuple.side m)) ->
  (MoveTuple.effective_end m <> Side.home (MoveTuple.side m)
   \/ _all_in_last_quarter spots (MoveTuple.side m) = Ok true) ->
  (if MoveTuple.starts_in_jail m
   then Side.owns_spot (MoveTuple.side m)
          (Py.dict_get (Py.dict jail) (MoveTuple.side m) 0) = true
   else exists old,
          Py.getitem spots (MoveTuple.effective_start m) = Ok old
          /\ Side.owns_spot (MoveTuple.side m) old = true) ->
  Py.getitem spots (MoveTuple.effective_end m) = Ok target ->
  2 <= target ->
  _make_move spots jail m = Raise IllegalMoveException.
Proof.
  intros Hside Hdir Hhome Horigin Hget Htarget.
  destruct (make_move_reaches_stomping spots jail m target)
    as (spots1 & jail1 & Hget1 & _ & ->); try done.
  { rewrite Hside. apply owns_spot_false_BLACK. lia. }
  unfold handle_stomping. rewrite Hget1, Hside. simpl.
  change (Side.other_side Side.BLACK) with Side.WHITE.
  replace (Side.owns_spot Side.WHITE target) with true
    by (symmetry; apply owns_spot_WHITE; lia).
  unfold _is_stompable.
  replace (target <? 2) with false by (symmetry; apply Z.ltb_ge; lia).
  reflexivity.
Qed.

Lemma black_blocked_by_white_point_witness :
  _make_move (place 3 2 (place 5 (-1) empty_board)) []
    (MoveTuple.Make Side.BLACK 5 2)
  = Raise IllegalMoveException.
Proof.
  apply (black_blocked_by_white_point (place 3 2 (place 5 (-1) empty_board)) []
           (MoveTuple.Make Side.BLACK 5 2) 2).
  - reflexivity.
  - reflexivity.
  - left. discriminate.
  - exists (-1). split; reflexivity.
  - reflexivity.
  - lia.
Defined.

(** X11. WHITE is not blocked by a BLACK point: the same move of WHITE onto a
    spot holding two or more BLACK checkers is taken as a capture, which
    ends in the ValueError of an increment on a spot that BLACK still
    owns (or of the increment of a jail entry of BLACK that WHITE owns). *)
Theorem white_onto_black_point (spots : Spots) (jail : Jail)
    (m : MoveTuple.t) (target : Z) :
  MoveTuple.side m = Side.WHITE ->
  MoveTuple.direction m = Ok (Side.direction (MoveTuple.side m)) ->
  (MoveTuple.effective_end m <> Side.home (MoveTuple.side m)
   \/ _all_in_last_quarter spots (MoveTuple.side m) = Ok true) ->
  (if MoveTuple.starts_in_jail m
   then Side.owns_spot (MoveTuple.side m)
          (Py.dict_get (Py.dict jail) (MoveTuple.side m) 0) = true
   else exists old,
          Py.getitem spots (MoveTuple.effective_start m) = Ok old
          /\ Side.owns_spot (MoveTuple.side m) old = true) ->
  Py.getitem spots (MoveTuple.effective_end m) = Ok target ->
  target <= -2 ->
  _make_move spots jail m = Raise ValueError.
Proof.
  intros Hside Hdir Hhome Horigin Hget Htarget.
  destruct (make_move_reaches_stomping spots jail m target)
    as (spots1 & jail1 & Hget1 & _ & ->); try done.
  { rewrite Hside. apply owns_spot_false_WHITE. lia. }
  unfold handle_stomping. rewrite Hget1, Hside. simpl.
  change (Side.other_side Side.WHITE) with Side.BLACK.
  replace (Side.owns_spot Side.BLACK target) with true
    by (symmetry; apply owns_spot_BLACK; lia).
  unfold _is_stompable.
  replace (target <? 2) with true by (symmetry; apply Z.ltb_lt; lia).
  simpl. unfold _decrement_for_side at 1.
  replace (Side.owns_spot Side.BLACK target) with true
    by (symmetry; apply owns_spot_BLACK; lia).
  simpl.
  apply getitem_Ok in Hget1 as (ke & Hke & _).
  destruct (getitem_insert_eq spots1 (MoveTuple.effective_end m) ke
              (target - 1 * -1) Hke) as [Hread ->].
  simpl. destruct (_increment_for_side _ Side.BLACK) as [jailed | e] eqn:Hinc.
  - simpl. rewrite Hread. simpl. unfold _increment_for_side.
    change (Side.other_side Side.WHITE) with Side.BLACK.
    replace (Side.owns_spot Side.BLACK _) with true; [reflexivity |].
    symmetry. apply owns_spot_BLACK. simpl. lia.
  - simpl. unfold _increment_for_side in Hinc.
    destruct (Side.owns_spot _ _) in Hinc; by simplify_eq.
Qed.

Lemma white_onto_black_point_witness :
  _make_move (place 3 (-3) (place 1 1 empty_board)) []
    (MoveTuple.Make Side.WHITE 1 2)
  = Raise ValueError.
Proof.
  apply (white_onto_black_point (place 3 (-3) (place 1 1 empty_board)) []
           (MoveTuple.Make Side.WHITE 1 2) (-3)).
  - reflexivity.
  - reflexivity.
  - left. discriminate.
  - exists 1. split; reflexivity.
  - reflexivity.
  - lia.
Defined.

(** ** What the enumerator returns *)

Lemma home_move_outcome (spots : Spots) (jail : Jail) (side : Side.t) (die : Z) :
  _make_move spots jail (MoveTuple.Make side (Side.home side) die)
  = if die <? 0 then Raise IllegalMoveException else Raise ZeroDivisionError.
Proof.
  set (m := MoveTuple.Make side (Side.home side) die).
  destruct (Z.ltb_spec die 0) as [Hneg | Hpos].
  - assert (Hne : MoveTuple.effective_end m <> MoveTuple.effective_start m).
    { subst m. destruct side; cbv [MoveTuple.effective_end
        MoveTuple.effective_start MoveTuple.starts_in_jail
        MoveTuple.signed_roll MoveTuple.side MoveTuple.start
        MoveTuple.die_roll Side.cap_to_home Side.cap Side.home Side.direction
        Side.token Side.jail_start START_FROM_JAIL_FLAG]; simpl Z.eqb;
        cbv iota; lia. }
    unfold _make_move. rewrite (direction_defined m Hne). simpl.
    replace (_ =? _) with false; [reflexivity |].
    symmetry. apply Z.eqb_neq. clear Hne. subst m.
    destruct side; cbv [MoveTuple.effective_end
      MoveTuple.effective_start MoveTuple.starts_in_jail
      MoveTuple.signed_roll MoveTuple.side MoveTuple.start
      MoveTuple.die_roll Side.cap_to_home Side.cap Side.home Side.direction
      Side.token Side.jail_start START_FROM_JAIL_FLAG]; simpl Z.eqb;
      cbv iota; lia.
  - apply make_move_degenerate. subst m.
    destruct side; cbv [MoveTuple.effective_end
      MoveTuple.effective_start MoveTuple.starts_in_jail
      MoveTuple.signed_roll MoveTuple.side MoveTuple.start
      MoveTuple.die_roll Side.cap_to_home Side.cap Side.home Side.direction
      Side.token Side.jail_start START_FROM_JAIL_FLAG]; simpl Z.eqb;
      cbv iota; lia.
Qed.

Lemma for_loop_guard {A S : Type} (f : A -> bool) (e : exn) (xs : list A) (s : S) :
  for_loop (fun s' x => if f x then Ok s' else Raise e) xs s
  = if forallb f xs then Ok s else Raise e.
Proof.
  induction xs as [| x xs IH]; [reflexivity |]. simpl.
  destruct (f x); simpl; [apply IH | reflexivity].
Qed.

Lemma forallb_fst_dice (f : Z -> bool) (dice : list Z) :
  forallb (fun p : Z * list Z => f p.1) (_get_die_and_other_dice dice)
  = forallb f dice.
Proof.
  rewrite <- (get_die_and_other_dice_fst dice) at 2.
  induction (_get_die_and_other_dice dice) as [| p ps IH]; [reflexivity |].
  csimpl. by rewrite IH.
Qed.

Lemma for_loop_one {A S : Type} (f : S -> A -> res S) (x : A) (s : S) :
  for_loop f [x] s = f s x ≫= (fun s' => Ok s').
Proof. reflexivity. Qed.

Local Opaque for_loop _get_die_and_other_dice.

(** The enumerator by cases: its only starting spot is the home spot, from
    which a negative roll is refused and any other roll divides by zero. *)
Lemma enumerator_cases (spots : Spots) (jail : Jail) (side : Side.t)
    (dice : list Z) :
  _get_all_move_sets spots jail side dice
  = match dice, start_spots_of side spots with
    | [], _ | _, [] => Ok [[]]
    | _ :: _, _ :: _ =>
        if forallb (fun die => die <? 0) dice then Ok []
        else Raise ZeroDivisionError
    end.
Proof.
  destruct dice as [| die dice]; [reflexivity |].
  unfold _get_all_move_sets. simpl.
  rewrite start_spots_of_first_spot.
  destruct spots as [| spot spots]; [reflexivity |].
  destruct (Side.owns_spot side spot); [| reflexivity].
  rewrite for_loop_one.
  rewrite (for_loop_ext _
             (fun acc (p : Z * list Z) =>
                if (fun q : Z * list Z => q.1 <? 0) p then Ok acc
                else Raise ZeroDivisionError)).
  - rewrite for_loop_guard, (forallb_fst_dice (fun d => d <? 0)).
    change (forallb (fun d => d <? 0) (die :: dice))
      with ((die <? 0) && forallb (fun d => d <? 0) dice).
    by destruct (_ && _).
  - intros acc [d other] _. rewrite home_move_outcome. simpl.
    by destruct (d <? 0).
Qed.

Local Transparent for_loop _get_die_and_other_dice.

(** X22. Whatever the position and the dice, the enumerator returns the empty
    sequence alone when there is no die or the side does not own
    [spots[0]]; otherwise it returns no sequence at all when every die is
    negative, and raises ZeroDivisionError when some die is not.  It never
    returns a sequence that contains a move. *)
Theorem get_all_move_sets_outcomes (spots : Spots) (jail : Jail) (side : Side.t)
    (dice : list Z) :
  _get_all_move_sets spots jail side dice
  = match dice, spots with
    | [], _ | _, [] => Ok [[]]
    | _ :: _, spot :: _ =>
        if Side.owns_spot side spot
        then if forallb (fun die => die <? 0) dice then Ok []
             else Raise ZeroDivisionError
        else Ok [[]]
    end
  /\ forall sequences move_set,
      _get_all_move_sets spots jail side dice = Ok sequences ->
      move_set ∈ sequences -> move_set = [].
Proof.
  rewrite enumerator_cases, start_spots_of_first_spot.
  split.
  - destruct dice, spots as [| spot spots]; try reflexivity.
    by destruct (Side.owns_spot side spot).
  - intros sequences move_set H Hin.
    assert (Hs : sequences = [[]] \/ sequences = []).
    { destruct dice, spots as [| spot spots]; simplify_eq; auto.
      destruct (Side.owns_spot side spot); simplify_eq; auto.
      destruct (forallb _ _); simplify_eq; auto. }
    destruct Hs as [-> | ->].
    + by apply list_elem_of_singleton in Hin.
    + by apply elem_of_nil in Hin.
Qed.

(** ** What the optimal moves are *)

Lemma optimal_moves_cases (spots : Spots) (jail : Jail) (side : Side.t)
    (dice : list Z) :
  _get_all_optimal_moves spots jail side dice
  = match dice, start_spots_of side spots with
    | [], _ | _, [] => Ok {[ [] ]}
    | _ :: _, _ :: _ =>
        if forallb (fun die => die <? 0) dice then Raise ValueError
        else Raise ZeroDivisionError
    end.
Proof.
  unfold _get_all_optimal_moves. rewrite enumerator_cases.
  assert (Hone : Ok [[]] ≫= (fun all_legal_move_sets : list MoveSet =>
             best_rating ← Py.max (List.map rating all_legal_move_sets);
             Ok (list_to_set
                   (List.map fst
                      (List.filter (fun p => snd p =? best_rating)
                         (combine all_legal_move_sets
                            (List.map rating all_legal_move_sets))))))
          = Ok ({[ [] ]} : gset MoveSet)).
  { simpl. f_equal; apply (right_id_L ∅ (∪)). }
  destruct dice as [| die dice]; [exact Hone |].
  destruct (start_spots_of side spots); [exact Hone |].
  by destruct (forallb _ _).
Qed.

(** X23. [_get_all_optimal_moves] returns the set that holds the empty sequence
    alone when there is no die or the side does not own [spots[0]];
    otherwise it raises: ValueError, from [max] of no rating, when every
    die is negative, and the enumerator's ZeroDivisionError when some die
    is not. *)
Theorem optimal_moves_outcomes (spots : Spots) (jail : Jail) (side : Side.t)
    (dice : list Z) :
  _get_all_optimal_moves spots jail side dice
  = match dice, spots with
    | [], _ | _, [] => Ok {[ [] ]}
    | _ :: _, spot :: _ =>
        if Side.owns_spot side spot
        then if forallb (fun die => die <? 0) dice then Raise ValueError
             else Raise ZeroDivisionError
        else Ok {[ [] ]}
    end.
Proof.
  rewrite optimal_moves_cases, start_spots_of_first_spot.
  destruct dice, spots as [| spot spots]; try reflexivity.
  by destruct (Side.owns_spot side spot).
Qed.

(** ** What play accepts *)

Lemma for_loop_app {A S : Type} (f : S -> A -> res S) (xs ys : list A) (s : S) :
  for_loop f (xs ++ ys) s = for_loop f xs s ≫= for_loop f ys.
Proof.
  revert s. induction xs as [| x xs IH]; intros s; simpl; [reflexivity |].
  destruct (f s x) as [s' | e]; simpl; [apply IH | reflexivity].
Qed.

Lemma play_needs_whole_rolls (spots : Spots) (jail : Jail) (side : Side.t)
    (move_set : MoveSet) (rolled_dice : list Z) (st : Spots * Jail) :
  play spots jail side move_set rolled_dice = Ok st ->
  forallb MoveTuple.uses_whole_roll move_set = true.
Proof.
  unfold play. intros H.
  destruct (forallb MoveTuple.uses_whole_roll move_set) eqn:Hall; [done |].
  simpl in H. rewrite optimal_moves_cases in H.
  assert (Hnot : move_set ∉ ({[ [] ]} : gset MoveSet)).
  { intros Hin. apply elem_of_singleton in Hin as ->. discriminate. }
  destruct rolled_dice as [| die dice].
  - simpl in H. by rewrite decide_False in H.
  - destruct (start_spots_of side spots).
    + simpl in H. by rewrite decide_False in H.
    + by destruct (forallb _ _) in H.
Qed.

(** X24. [play] succeeds only on a move set in which every move uses its whole
    roll: a move set with a move that is cut short at home is never
    accepted, whatever the optimal moves.  And then the result depends on
    neither the side nor the rolled dice handed to [play]: the moves are
    not checked against them. *)
Theorem play_success (spots : Spots) (jail : Jail) (side : Side.t)
    (move_set : MoveSet) (rolled_dice : list Z) (st : Spots * Jail) :
  play spots jail side move_set rolled_dice = Ok st ->
  forallb MoveTuple.uses_whole_roll move_set = true
  /\ forall side' rolled_dice',
      play spots jail side' move_set rolled_dice' = Ok st.
Proof.
  intros H. pose proof (play_needs_whole_rolls _ _ _ _ _ _ H) as Hall.
  split; [done |]. intros side' rolled_dice'.
  revert H. unfold play. rewrite Hall. done.
Qed.

Lemma play_success_witness :
  forallb MoveTuple.uses_whole_roll [MoveTuple.Make Side.WHITE 20 5] = true
  /\ forall side' rolled_dice',
      play test_spots [] side' [MoveTuple.Make Side.WHITE 20 5] rolled_dice'
      = Ok (place 25 1 empty_board, []).
Proof.
  exact (play_success test_spots [] Side.WHITE [MoveTuple.Make Side.WHITE 20 5]
           [5; 6] (place 25 1 empty_board, []) eq_refl).
Defined.

(** X25. Playing two move sets one after the other is playing their
    concatenation, when every move uses its whole roll. *)
Theorem play_app (spots : Spots) (jail : Jail) (side : Side.t)
    (first second : MoveSet) (rolled_dice : list Z) :
  forallb MoveTuple.uses_whole_roll (first ++ second) = true ->
  play spots jail side (first ++ second) rolled_dice
  = '(spots', jail') ← play spots jail side first rolled_dice;
    play spots' jail' side second rolled_dice.
Proof.
  intros Hall. pose proof Hall as Hboth.
  rewrite forallb_app, andb_true_iff in Hboth. destruct Hboth as [H1 H2].
  unfold play. rewrite Hall, H1, H2. simpl. rewrite for_loop_app.
  destruct (for_loop _ first (spots, jail)) as [[spots' jail'] | e]; reflexivity.
Qed.

Lemma play_app_witness :
  play test_spots [] Side.WHITE
    ([MoveTuple.Make Side.WHITE 20 2] ++ [MoveTuple.Make Side.WHITE 22 3]) [2; 3]
  = '(spots', jail') ← play test_spots [] Side.WHITE
                         [MoveTuple.Make Side.WHITE 20 2] [2; 3];
    play spots' jail' Side.WHITE [MoveTuple.Make Side.WHITE 22 3] [2; 3].
Proof.
  apply (play_app test_spots [] Side.WHITE [MoveTuple.Make Side.WHITE 20 2]
           [MoveTuple.Make Side.WHITE 22 3] [2; 3]).
  reflexivity.
Defined.

(** ** Checkers are conserved by play *)

Lemma make_move_invariants (spots : Spots) (jail : Jail) (m : MoveTuple.t)
    (spots' : Spots) (jail' : Jail) :
  _make_move spots jail m = Ok (spots', jail') ->
  (forall s, total_count s spots' jail' = total_count s spots jail)
  /\ length spots' = length spots.
Proof.
  intros H.
  apply make_move_effect in H as (spots1 & jail1 & ke & target & H1 & _ & Ht & H2).
  apply decrement_start_Ok in H1 as (Hs1 & Ho1 & Hj1 & Hlen & Hnd & _).
  specialize (Hnd (dict_NoDup jail)).
  revert Hs1 Ho1 Hj1 H2. generalize (MoveTuple.side m).
  intros side Hs1 Ho1 Hj1 H2. unfold total_count, jail_count.
  destruct (Side.owns_spot (Side.other_side side) target) eqn:Hown.
  - destruct H2 as (-> & -> & Hjail & ->).
    rewrite <- (other_side_involutive side) in Hjail at 1.
    destruct (checkers_of_increment _ _ Hjail) as (Hinc & _).
    rewrite length_insert. split; [| done]. intros s.
    rewrite (board_count_insert _ _ _ _ _ Ht).
    rewrite dict_of_dict by (by apply dict_set_NoDup).
    unfold entry_count in *. rewrite dict_get_set.
    destruct (two_sides side s) as [-> | ->].
    + rewrite decide_False by apply other_side_differs.
      replace (checkers_of side (Side.token (Side.other_side side))) with 0
        by (by destruct side).
      replace (checkers_of side (Side.token side)) with 1 by (by destruct side).
      lia.
    + rewrite decide_True by done. rewrite Hinc.
      replace (checkers_of (Side.other_side side)
                 (Side.token (Side.other_side side))) with 1
        by (by destruct side).
      replace (checkers_of (Side.other_side side) (Side.token side)) with 0
        by (by destruct side).
      lia.
  - destruct H2 as (-> & ->).
    destruct (checkers_of_increment _ _ Hown) as (Hi & Hio1 & Hio2).
    rewrite length_insert. split; [| done]. intros s.
    rewrite (board_count_insert _ _ _ _ _ Ht).
    rewrite dict_of_dict by done. unfold entry_count in *.
    destruct (two_sides side s) as [-> | ->]; lia.
Qed.

Lemma play_applies (spots : Spots) (jail : Jail) (side : Side.t)
    (move_set : MoveSet) (rolled_dice : list Z) (st : Spots * Jail) :
  play spots jail side move_set rolled_dice = Ok st ->
  for_loop (fun '(spots, jail) move => _make_move spots jail move)
    move_set (spots, jail) = Ok st.
Proof.
  unfold play. intros H. apply bind_Ok in H as ([] & _ & H). exact H.
Qed.

(** X26. When [play] succeeds, each side has as many checkers on the board and
    in jail together as before, and the board has the length it had. *)
Theorem play_conserves_checkers (spots : Spots) (jail : Jail) (side : Side.t)
    (move_set : MoveSet) (rolled_dice : list Z) (spots' : Spots) (jail' : Jail) :
  play spots jail side move_set rolled_dice = Ok (spots', jail') ->
  (forall s, total_count s spots' jail' = total_count s spots jail)
  /\ length spots' = length spots.
Proof.
  intros H. apply play_applies in H. clear side rolled_dice.
  revert spots jail H.
  induction move_set as [| m ms IH]; intros spots jail H; simpl in H.
  - by injection H as <- <-.
  - apply bind_Ok in H as ([spots1 jail1] & Hm & H).
    apply make_move_invariants in Hm as (Ht1 & Hl1).
    apply IH in H as (Ht & Hl). split; [| congruence].
    intros s. rewrite Ht. apply Ht1.
Qed.

Lemma play_conserves_checkers_witness :
  (forall s, total_count s (place 25 1 empty_board) [] = total_count s test_spots [])
  /\ length (place 25 1 empty_board) = length test_spots.
Proof.
  exact (play_conserves_checkers test_spots [] Side.WHITE
           [MoveTuple.Make Side.WHITE 20 2; MoveTuple.Make Side.WHITE 22 3] [2; 3]
           (place 25 1 empty_board) [] eq_refl).
Defined.

(** ** The order of the two draws *)

(** X27. [roll_dice] returns the same tuple whichever of the two values is
    drawn first. *)
Theorem roll_dice_from_comm (a b : Z) : roll_dice_from a b = roll_dice_from b a.
Proof.
  unfold roll_dice_from, Py.sorted. rewrite (Z.eqb_sym b a).
  destruct (Z.eqb_spec a b) as [-> | Hne]; [reflexivity |]. cbn.
  destruct (Z.leb_spec a b), (Z.leb_spec b a); try lia; reflexivity.
Qed.

(** ** Reaching home *)

(** X8. A move into the side's home succeeds only if the scan of the first
    three quarters returned True. *)
Theorem make_move_into_home (spots : Spots) (jail : Jail) (m : MoveTuple.t)
    (st : Spots * Jail) :
  _make_move spots jail m = Ok st ->
  MoveTuple.effective_end m = Side.home (MoveTuple.side m) ->
  _all_in_last_quarter spots (MoveTuple.side m) = Ok true.
Proof.
  unfold _make_move. intros H Hhome.
  apply bind_Ok in H as (d & _ & H).
  destruct (negb _); [discriminate |].
  apply bind_Ok in H as (blocked & Hblocked & H).
  destruct blocked; [discriminate |].
  rewrite Hhome, Z.eqb_refl in Hblocked.
  apply bind_Ok in Hblocked as (inside & Hscan & [= Hinside]).
  rewrite Hscan. f_equal. by apply negb_false_iff.
Qed.

Lemma make_move_into_home_witness :
  _all_in_last_quarter test_spots Side.WHITE = Ok true.
Proof.
  apply (make_move_into_home test_spots [] (MoveTuple.Make Side.WHITE 20 5)
           (place 25 1 empty_board, [])).
  - reflexivity.
  - reflexivity.
Defined.

Lemma bearing_off_rule_witness :
  _make_move (place 22 1 (place 1 1 empty_board)) []
    (MoveTuple.Make Side.WHITE 22 3)
  = Raise IllegalMoveException.
Proof.
  apply (bearing_off_rule (place 22 1 (place 1 1 empty_board)) []
           (MoveTuple.Make Side.WHITE 22 3) 1 1).
  - simpl. lia.
  - discriminate.
  - reflexivity.
  - apply first_three_quarters_range. simpl. lia.
  - reflexivity.
  - reflexivity.
Defined.
